(** * python-shell: a shallow embedding of [shell.py]

    The development follows the source top-down: the enumerations and
    constants, the Python string primitives the code calls, the
    permission formatter, a small POSIX file-system model (the tree the
    shell walks with [os.chdir], [Path.exists], [Path.iterdir] and
    [Path.stat]), the history file, the parser, the command manager and
    one iteration of [main].

    Conventions.
    - Python [str] is Rocq's [string]; a character is a code point below
      256.  On that range [str.upper] changes exactly the letters a-z as
      far as membership in [Command._member_names_] is concerned.
    - Python [int] is [Z]; [&] is [Z.land].
    - The system is Linux with UTF-8 file names: a name is at most
      [NAME_MAX] bytes, a path handed to a system call fewer than
      [PATH_MAX].  Directories whose absolute path does not fit in
      [PATH_MAX] are outside the tree model.
    - [print] appends a [Print] event to the output of the call;
      exceptions are values of type [exception] carried by [result] or by
      the [status] of a command. *)

From Stdlib Require Import ZArith List Bool Lia Ascii String.
From Stdlib Require Import Numbers.DecimalString.
Import ListNotations.

Set Warnings "-register-all".

Open Scope string_scope.
Open Scope Z_scope.

(* ===================================================================== *)
(** ** Python string primitives *)
(* ===================================================================== *)

Module PyStr.

(** [str(n)] for an [int]. *)
Definition str_of_Z (n : Z) : string :=
  NilZero.string_of_int (Z.to_int n).

(** [str.isspace] on one character: TAB..CR, FS..US, space, NEL, NBSP. *)
Definition isspace (c : ascii) : bool :=
  let n := nat_of_ascii c in
  ((9 <=? n) && (n <=? 13) || (28 <=? n) && (n <=? 32)
   || (n =? 133) || (n =? 160))%nat.

(** [str.upper] on one character (letters a-z). *)
Definition upper_char (c : ascii) : ascii :=
  let n := nat_of_ascii c in
  if ((97 <=? n) && (n <=? 122))%nat then ascii_of_nat (n - 32) else c.

Fixpoint upper (s : string) : string :=
  match s with
  | EmptyString => EmptyString
  | String c s' => String (upper_char c) (upper s')
  end.

(** [str.lower], same range. *)
Definition lower_char (c : ascii) : ascii :=
  let n := nat_of_ascii c in
  if ((65 <=? n) && (n <=? 90))%nat then ascii_of_nat (n + 32) else c.

Fixpoint lower (s : string) : string :=
  match s with
  | EmptyString => EmptyString
  | String c s' => String (lower_char c) (lower s')
  end.

(** [s.startswith(p)]. *)
Definition startswith (p s : string) : bool := String.prefix p s.

(** [sep.join(l)]. *)
Fixpoint join (sep : string) (l : list string) : string :=
  match l with
  | [] => ""
  | [x] => x
  | x :: rest => x ++ sep ++ join sep rest
  end.

(** [s.split()] : maximal runs of non-whitespace characters.  [cur] is
    the token being read. *)
Fixpoint split_ws_from (cur : string) (s : string) : list string :=
  match s with
  | EmptyString => if (cur =? "")%string then [] else [cur]
  | String c s' =>
      if isspace c
      then (if (cur =? "")%string then split_ws_from "" s'
            else cur :: split_ws_from "" s')
      else split_ws_from (cur ++ String c "") s'
  end.

Definition split_ws (s : string) : list string := split_ws_from "" s.

(** [s.split(sep)] for a one-character separator: always at least one
    field. *)
Fixpoint split_on (sep : ascii) (s : string) : list string :=
  match s with
  | EmptyString => [""]
  | String c s' =>
      if Ascii.eqb c sep then "" :: split_on sep s'
      else match split_on sep s' with
           | h :: t => String c h :: t
           | [] => [String c ""]
           end
  end.

(** [s.lstrip()], [s.rstrip()], [s.strip()]. *)
Fixpoint lstrip (s : string) : string :=
  match s with
  | EmptyString => ""
  | String c s' => if isspace c then lstrip s' else s
  end.

Fixpoint rstrip (s : string) : string :=
  match s with
  | EmptyString => ""
  | String c s' =>
      match rstrip s' with
      | EmptyString => if isspace c then "" else String c ""
      | r => String c r
      end
  end.

Definition strip (s : string) : string := rstrip (lstrip s).

(** [list(s)] : the characters of [s] as one-character strings. *)
Fixpoint chars (s : string) : list string :=
  match s with
  | EmptyString => []
  | String c s' => String c "" :: chars s'
  end.

(** [x in l] for a list of strings. *)
Definition mem (x : string) (l : list string) : bool :=
  existsb (String.eqb x) l.

End PyStr.

(* ===================================================================== *)
(** ** Enumerations and constants (lines 10-32, 94-95) *)
(* ===================================================================== *)

Inductive Command := ECHO | CD | PWD | LS | EXIT | CLEAR | HISTORY.

(** The value of each member. *)
Definition Command_value (c : Command) : string :=
  match c with
  | ECHO => "echo"
  | CD => "cd"
  | PWD => "pwd"
  | LS => "ls"
  | EXIT => "exit"
  | CLEAR => "clear"
  | HISTORY => "history"
  end.

(** [Command._member_names_], in definition order. *)
Definition Command_member_names : list string :=
  ["ECHO"; "CD"; "PWD"; "LS"; "EXIT"; "CLEAR"; "HISTORY"].

(** [LsArguments.L.value], [LsArguments.A.value]. *)
Definition LsArguments_L : string := "l".
Definition LsArguments_A : string := "a".

(** The [stat] module's permission masks. *)
Module stat.
Definition S_IRUSR : Z := 256.
Definition S_IWUSR : Z := 128.
Definition S_IXUSR : Z := 64.
Definition S_IRGRP : Z := 32.
Definition S_IWGRP : Z := 16.
Definition S_IXGRP : Z := 8.
Definition S_IROTH : Z := 4.
Definition S_IWOTH : Z := 2.
Definition S_IXOTH : Z := 1.
Definition S_IFMT (mode : Z) : Z := Z.land mode 61440.   (* 0o170000 *)
Definition S_IFDIR : Z := 16384.                         (* 0o040000 *)
Definition S_ISDIR (mode : Z) : bool := S_IFMT mode =? S_IFDIR.
End stat.

Module Permissions.
Definition OWNER : list Z := [stat.S_IRUSR; stat.S_IWUSR; stat.S_IXUSR].
Definition GROUP : list Z := [stat.S_IRGRP; stat.S_IWGRP; stat.S_IXGRP].
Definition OTHERS : list Z := [stat.S_IROTH; stat.S_IWOTH; stat.S_IXOTH].
End Permissions.

Definition PERMISSIONS_SYMBOLS : list string := ["r"; "w"; "x"].
Definition EMPTY_PERMISSION_SYMBOL : string := "-".

(* ===================================================================== *)
(** ** The permission formatter (lines 187-220) *)
(* ===================================================================== *)

(** [enumerate(l)], counting from [index]. *)
Fixpoint enumerate_from {A} (index : nat) (l : list A) : list (nat * A) :=
  match l with
  | [] => []
  | x :: rest => (index, x) :: enumerate_from (S index) rest
  end.

(** The body shared by the three [_format_*_permissions] loops: for each
    [(index, value)] append [PERMISSIONS_SYMBOLS[index]] when
    [st_mode & value] is non-zero, [EMPTY_PERMISSION_SYMBOL] otherwise. *)
Definition format_levels (levels : list Z) (permissions : string) (st_mode : Z)
  : string :=
  fold_left
    (fun permissions '(index, value) =>
       if negb (Z.land st_mode value =? 0)
       then permissions ++ nth index PERMISSIONS_SYMBOLS ""
       else permissions ++ EMPTY_PERMISSION_SYMBOL)
    (enumerate_from 0 levels) permissions.

Definition _format_owner_permissions := format_levels Permissions.OWNER.
Definition _format_group_permissions := format_levels Permissions.GROUP.
Definition _format_others_permissions := format_levels Permissions.OTHERS.

Definition _format_path_permissions_levels (st_mode : Z) : string :=
  let permissitons := if stat.S_ISDIR st_mode then "d" else "-" in
  let permissitons := _format_owner_permissions permissitons st_mode in
  let permissitons := _format_group_permissions permissitons st_mode in
  let permissitons := _format_others_permissions permissitons st_mode in
  permissitons.

(* ===================================================================== *)
(** ** Exceptions, results and output *)
(* ===================================================================== *)

Inductive exception :=
| FileNotFoundError
| NotADirectoryError
| IsADirectoryError
| OSError_ENAMETOOLONG
| IndexError
| TypeError
| AttributeError
| EOFError
| ValueError (message : string).

Inductive result (A : Type) :=
| Ok (a : A)
| Raise (e : exception).
Arguments Ok {A} a.
Arguments Raise {A} e.

Definition bind {A B} (r : result A) (k : A -> result B) : result B :=
  match r with
  | Ok a => k a
  | Raise e => Raise e
  end.

Notation "x <- r ;; k" := (bind r (fun x => k))
  (at level 61, r at next level, right associativity).

(** What the process writes to the terminal: a [print]ed line, the
    prompt of [input], or the effect of [os.system("clear")]. *)
Inductive event :=
| Print (line : string)
| Prompt (text : string)
| ClearScreen.

(** How a call ends: it returns, [exit(0)] raised [SystemExit], or an
    exception escaped it. *)
Inductive status :=
| Continue
| SystemExit (code : Z)
| Uncaught (e : exception).

(* ===================================================================== *)
(** ** The file system the shell sees *)
(* ===================================================================== *)

(** An inode without its size; [i_owner] and [i_group] are the names the
    account database gives for the owner and group ids ([Path.owner()],
    [Path.group()]). *)
Record inode := {
  i_mode : Z;
  i_nlink : Z;
  i_owner : string;
  i_group : string;
  i_mtime : Z;
  i_ctime : Z
}.

(** A tree without symbolic links; search and read permissions are not
    modelled.  The entries of a directory are kept in the order
    [iterdir] yields them. *)
Inductive node :=
| File (i : inode) (data : string)
| Dir (i : inode) (size : Z) (entries : list (string * node)).

Record stat_result := {
  st_mode : Z;
  st_nlink : Z;
  st_size : Z;
  st_mtime : Z;
  st_ctime : Z
}.

Definition node_inode (n : node) : inode :=
  match n with
  | File i _ => i
  | Dir i _ _ => i
  end.

(** [os.stat] on a resolved node: a regular file's size is the length of
    its contents. *)
Definition stat_of (n : node) : stat_result :=
  let i := node_inode n in
  {| st_mode := i_mode i;
     st_nlink := i_nlink i;
     st_size := match n with
                | File _ data => Z.of_nat (String.length data)
                | Dir _ size _ => size
                end;
     st_mtime := i_mtime i;
     st_ctime := i_ctime i |}.

(** Limits of the system: bytes in a file name, bytes in a path
    including its terminator. *)
Definition NAME_MAX : nat := 255.
Definition PATH_MAX : nat := 4096.

(** The number of bytes of [s] once encoded for the system (UTF-8: two
    bytes for a code point from 128 on). *)
Fixpoint encoded_length (s : string) : nat :=
  match s with
  | EmptyString => O
  | String c s' =>
      ((if nat_of_ascii c <? 128 then 1 else 2) + encoded_length s')%nat
  end.

(** Does [s] hold a NUL character? *)
Fixpoint has_nul (s : string) : bool :=
  match s with
  | EmptyString => false
  | String c s' => Ascii.eqb c "000"%char || has_nul s'
  end.

Definition name_too_long (name : string) : bool :=
  (NAME_MAX <? encoded_length name)%nat.

Fixpoint lookup (name : string) (entries : list (string * node)) : option node :=
  match entries with
  | [] => None
  | (n, x) :: rest => if (n =? name)%string then Some x else lookup name rest
  end.

(** Path resolution by the kernel, one component at a time, from [cur]
    whose ancestors (nearest first) are [up]: a component is looked up
    in a directory only (ENOTDIR otherwise), a missing name is ENOENT,
    or ENAMETOOLONG when it is longer than [NAME_MAX] bytes, [".."]
    goes to the parent and stays at the root. *)
Fixpoint walk (up : list node) (cur : node) (comps : list string)
  : result (list node * node) :=
  match comps with
  | [] => Ok (up, cur)
  | c :: rest =>
      match cur with
      | File _ _ => Raise NotADirectoryError
      | Dir _ _ entries =>
          if (c =? "..")%string then
            match up with
            | [] => walk [] cur rest
            | parent :: up' => walk up' parent rest
            end
          else
            match lookup c entries with
            | None =>
                Raise (if name_too_long c then OSError_ENAMETOOLONG
                       else FileNotFoundError)
            | Some child => walk (cur :: up) child rest
            end
      end
  end.

Record world := {
  root : node;              (* the directory "/" *)
  cwd : list string;        (* os.getcwd(), as components below "/" *)
  home : string;            (* str(Path.home()) *)
  creat_inode : inode       (* the inode given to a file this process creates *)
}.

Definition set_cwd (w : world) (c : list string) : world :=
  {| root := root w; cwd := c; home := home w; creat_inode := creat_inode w |}.

Definition set_root (w : world) (r : node) : world :=
  {| root := r; cwd := cwd w; home := home w; creat_inode := creat_inode w |}.

(** [str(Path.cwd())]. *)
Definition path_str (comps : list string) : string :=
  "/" ++ PyStr.join "/" comps.

(** The components of a path string, as [pathlib] and the kernel agree
    on them: empty components and ["."] are dropped. *)
Definition parts (path : string) : list string :=
  filter (fun c => negb ((c =? "") || (c =? "."))%string)
         (PyStr.split_on "/" path).

Definition is_absolute (path : string) : bool := PyStr.startswith "/" path.

(** Resolve [path] from the root, or from the working directory when it
    is relative. *)
Definition resolve (w : world) (path : string) : result node :=
  r <- walk [] (root w)
         (if is_absolute path then parts path else (cwd w ++ parts path)%list) ;;
  Ok (snd r).

(** [os.path.normpath] on the components of an absolute path: [".."]
    removes the component before it and is dropped at the root. *)
Fixpoint normpath_abs (new_comps : list string) (comps : list string)
  : list string :=
  match comps with
  | [] => new_comps
  | comp :: rest =>
      if (comp =? "..")%string
      then normpath_abs (removelast new_comps) rest
      else normpath_abs (new_comps ++ [comp]) rest
  end.

(** [os.path.abspath(path)], as components below "/":
    [normpath(join(os.getcwd(), path))]. *)
Definition abspath (w : world) (path : string) : list string :=
  normpath_abs []
    (if is_absolute path then parts path else (cwd w ++ parts path)%list).

(** A path that starts with exactly two slashes keeps them, in
    [os.path.normpath] and in [pathlib]. *)
Definition double_slash (path : string) : bool :=
  PyStr.startswith "//" path && negb (PyStr.startswith "///" path).

(** [os.path.abspath(path)] as the string it is. *)
Definition abspath_str (w : world) (path : string) : string :=
  (if double_slash path then "//" else "/")
  ++ PyStr.join "/" (abspath w path).

(** [os.chdir(arg)] for an absolute, normalised [arg] whose components
    are [comps].  When the path does not resolve, a NUL character in
    [arg] has made Python raise [ValueError] before the call and an
    [arg] that does not fit in [PATH_MAX] has made the call fail with
    ENAMETOOLONG before any lookup; no name of the tree holds a NUL, so
    a path that resolves has none. *)
Definition os_chdir (w : world) (arg : string) (comps : list string)
  : result world :=
  match walk [] (root w) comps with
  | Ok r =>
      match snd r with
      | Dir _ _ _ => Ok (set_cwd w comps)
      | File _ _ => Raise NotADirectoryError
      end
  | Raise e =>
      Raise (if has_nul arg then ValueError "embedded null byte"
             else if (PATH_MAX <=? encoded_length arg)%nat
                  then OSError_ENAMETOOLONG
                  else e)
  end.

(** [str(Path(path))]. *)
Definition Path_str (path : string) : string :=
  let anchor := if double_slash path then "//"
                else if is_absolute path then "/" else "" in
  let s := anchor ++ PyStr.join "/" (parts path) in
  if (s =? "")%string then "." else s.

(** [Path(path).exists()] (Python 3.11): [os.stat] on the path; a
    [ValueError] (NUL character) and the errors ENOENT and ENOTDIR give
    [False], any other [OSError] is raised again. *)
Definition Path_exists (w : world) (path : string) : result bool :=
  if has_nul path then Ok false
  else if (PATH_MAX <=? encoded_length (Path_str path))%nat
       then Raise OSError_ENAMETOOLONG
       else match resolve w path with
            | Ok _ => Ok true
            | Raise FileNotFoundError => Ok false
            | Raise NotADirectoryError => Ok false
            | Raise e => Raise e
            end.

(** [list(Path(path).iterdir())], each child with its name. *)
Definition Path_iterdir (w : world) (path : string)
  : result (list (string * node)) :=
  n <- resolve w path ;;
  match n with
  | Dir _ _ entries => Ok entries
  | File _ _ => Raise NotADirectoryError
  end.

(** Appending to the file at [comps] below [n]; a missing last
    component is created with inode [fresh]. *)
Fixpoint append_entry (name : string) (f : node -> node) (fresh : node)
  (entries : list (string * node)) : list (string * node) :=
  match entries with
  | [] => [(name, fresh)]
  | (n, x) :: rest =>
      if (n =? name)%string then (n, f x) :: rest
      else (n, x) :: append_entry name f fresh rest
  end.

Fixpoint update_entry (name : string) (f : node -> node)
  (entries : list (string * node)) : list (string * node) :=
  match entries with
  | [] => []
  | (n, x) :: rest =>
      if (n =? name)%string then (n, f x) :: rest
      else (n, x) :: update_entry name f rest
  end.

Definition append_data (text : string) (n : node) : node :=
  match n with
  | File i data => File i (data ++ text)
  | Dir _ _ _ => n
  end.

Fixpoint append_at (fresh : inode) (comps : list string) (text : string)
  (n : node) : node :=
  match comps, n with
  | [name], Dir i size entries =>
      Dir i size
        (append_entry name (append_data text) (File fresh text) entries)
  | name :: rest, Dir i size entries =>
      Dir i size (update_entry name (append_at fresh rest text) entries)
  | _, _ => n
  end.

(** [open(path, "a")] followed by one [write(text)], for a path relative
    to the working directory whose parent is the working directory. *)
Definition open_append (w : world) (name : string) (text : string)
  : result world :=
  r <- walk [] (root w) (cwd w) ;;
  match snd r with
  | File _ _ => Raise NotADirectoryError
  | Dir _ _ entries =>
      match lookup name entries with
      | Some (Dir _ _ _) => Raise IsADirectoryError
      | _ => Ok (set_root w (append_at (creat_inode w)
                               (cwd w ++ [name]) text (root w)))
      end
  end.

(** [open(path, "rb").read()], same kind of path. *)
Definition open_read (w : world) (name : string) : result string :=
  r <- walk [] (root w) (cwd w ++ [name]) ;;
  match snd r with
  | File _ data => Ok data
  | Dir _ _ _ => Raise IsADirectoryError
  end.

(* ===================================================================== *)
(** ** History (lines 35-66) *)
(* ===================================================================== *)

Module History.

(** [HISTORY_FILE_PATH = "./.history_shell"]: the entry [.history_shell]
    of whatever the working directory is at the time of the call. *)
Definition HISTORY_FILE_NAME : string := ".history_shell".

Definition newline : ascii := "010"%char.

(** [init]: [open(path, "a").close()]. *)
Definition init (w : world) : result world :=
  open_append w HISTORY_FILE_NAME "".

(** [write_history]: [timestamp] is [str(datetime.now().timestamp())]. *)
Definition write_history (timestamp : string) (source_command : string)
  (w : world) : result world :=
  open_append w HISTORY_FILE_NAME
    (timestamp ++ ":" ++ source_command ++ String newline "").

(** The loop [while history.read(1) != b"\n": history.seek(-2, SEEK_CUR)]
    started at offset [pos]: the result is the offset after it.  Seeking
    before offset 0 raises [OSError], handled by [history.seek(0)]. *)
Fixpoint scan_back (data : string) (pos : nat) : nat :=
  match String.get pos data with
  | Some c =>
      if Ascii.eqb c newline then S pos
      else match pos with
           | O => O
           | S p => scan_back data p
           end
  | None =>
      match pos with
      | O => O
      | S p => scan_back data p
      end
  end.

(** [history.seek(-2, os.SEEK_END)] and the loop. *)
Definition last_line_offset (data : string) : nat :=
  let size := String.length data in
  if (size <? 2)%nat then O else scan_back data (size - 2).

(** [readline()] at the start of [s]. *)
Fixpoint readline (s : string) : string :=
  match s with
  | EmptyString => ""
  | String c s' =>
      if Ascii.eqb c newline then String c "" else String c (readline s')
  end.

Fixpoint drop (n : nat) (s : string) : string :=
  match n, s with
  | O, _ => s
  | S n', String _ s' => drop n' s'
  | S _, EmptyString => ""
  end.

(** [value.split(":")[1].strip()]. *)
Definition command_field (line : string) : result string :=
  match PyStr.split_on ":" line with
  | _ :: field :: _ => Ok (PyStr.strip field)
  | _ => Raise IndexError
  end.

Definition is_not_equal_last_history_record (w : world)
  (source_command : string) : result bool :=
  r <- walk [] (root w) (cwd w ++ [HISTORY_FILE_NAME]) ;;
  if (st_size (stat_of (snd r)) =? 0) || (source_command =? "")%string
  then Ok true
  else
    data <- open_read w HISTORY_FILE_NAME ;;
    field <- command_field (readline (drop (last_line_offset data) data)) ;;
    Ok (negb (field =? source_command)%string).

(** What a file opened in text mode gives to read: a carriage return,
    alone or followed by a line break, is read as a line break. *)
Fixpoint universal_newlines (s : string) : string :=
  match s with
  | EmptyString => ""
  | String c s' =>
      if Ascii.eqb c "013"%char
      then String newline
             (match s' with
              | String c' s'' =>
                  if Ascii.eqb c' newline then universal_newlines s''
                  else universal_newlines s'
              | EmptyString => ""
              end)
      else String c (universal_newlines s')
  end.

(** The lines of a text, each with its line break. *)
Fixpoint readlines_from (cur : string) (s : string) : list string :=
  match s with
  | EmptyString => if (cur =? "")%string then [] else [cur]
  | String c s' =>
      if Ascii.eqb c newline
      then (cur ++ String c "") :: readlines_from "" s'
      else readlines_from (cur ++ String c "") s'
  end.

(** [readlines()] on a file opened with mode ["r"]. *)
Definition readlines (s : string) : list string :=
  readlines_from "" (universal_newlines s).

(** The loop of [show] over [enumerate(lines)]: what was printed before
    a line without a colon raised [IndexError] stays printed. *)
Fixpoint show_lines (lines : list (nat * string)) : list event * status :=
  match lines with
  | [] => ([], Continue)
  | (index, value) :: rest =>
      match command_field value with
      | Raise e => ([], Uncaught e)
      | Ok text =>
          let '(out, st) := show_lines rest in
          (Print (PyStr.str_of_Z (Z.of_nat index) ++ "  " ++ text) :: out, st)
      end
  end.

Definition show (w : world) : list event * status :=
  match open_read w HISTORY_FILE_NAME with
  | Raise e => ([], Uncaught e)
  | Ok data => show_lines (enumerate_from 0 (readlines data))
  end.

End History.

(* ===================================================================== *)
(** ** Parser (lines 69-91) *)
(* ===================================================================== *)

Module Parser.

Record t := {
  tokens : list string;
  main_command : option string;
  arguments : list string
}.

Definition _tokenize (source_command : string) : list string :=
  PyStr.split_ws source_command.

Definition _validate_main_command (main_command : string) : result unit :=
  if negb (PyStr.mem (PyStr.upper main_command) Command_member_names)
  then Raise (ValueError "Commands not found.")
  else Ok tt.

Definition _parse_main_command (tokens : list string)
  : list event * option string :=
  match tokens with
  | main_command :: _ =>
      match _validate_main_command main_command with
      | Ok _ => ([], Some main_command)
      | Raise _ => ([Print ("Command not found: " ++ main_command)], None)
      end
  | [] => ([], None)
  end.

(** [Parser.__init__]. *)
Definition init (source_command : string) : list event * t :=
  let tokens := _tokenize source_command in
  let '(out, main_command) := _parse_main_command tokens in
  (out, {| tokens := tokens;
           main_command := main_command;
           arguments := tl tokens |}).

End Parser.

(* ===================================================================== *)
(** ** CommandManager (lines 98-237) *)
(* ===================================================================== *)

(** What [getattr(self, name)] finds on a [CommandManager]: one of the
    seven command methods, or another member of the class. *)
Inductive attribute :=
| Handler (c : Command)
| Member.

(** The members of the class and of its instances other than the command
    methods.  The attributes inherited from [object] are left out: their
    names all start with two underscores. *)
Definition other_members : list string :=
  ["_main_command"; "_arguments"; "__init__"; "run"; "_execute_command";
   "_able_to_receive_arguments"; "_parse_ls_arguments";
   "_format_ls_long_listing"; "_format_path_permissions_levels";
   "_format_owner_permissions"; "_format_group_permissions";
   "_format_others_permissions"; "_get_no_hidden_items_from_path";
   "_validate_ls_path_argument"].

Definition handler_of_name (name : string) : option Command :=
  if (name =? "echo")%string then Some ECHO
  else if (name =? "exit")%string then Some EXIT
  else if (name =? "clear")%string then Some CLEAR
  else if (name =? "pwd")%string then Some PWD
  else if (name =? "history")%string then Some HISTORY
  else if (name =? "cd")%string then Some CD
  else if (name =? "ls")%string then Some LS
  else None.

Definition getattr (name : string) : option attribute :=
  match handler_of_name name with
  | Some c => Some (Handler c)
  | None => if PyStr.mem name other_members then Some Member else None
  end.

Definition hasattr (name : string) : bool :=
  match getattr name with
  | Some _ => true
  | None => false
  end.

(** [inspect.getfullargspec(method).args] for the command methods: the
    static methods have no parameter, the others [self] and one more. *)
Definition getfullargspec_args (c : Command) : list string :=
  match c with
  | ECHO => ["self"; "arguments"]
  | CD => ["self"; "argument_path"]
  | LS => ["self"; "parameters"]
  | EXIT | CLEAR | PWD | HISTORY => []
  end.

Definition truthy {A} (l : list A) : bool :=
  match l with
  | [] => false
  | _ :: _ => true
  end.

Section CommandManager.

(** [str(datetime.fromtimestamp(t))]: depends on the local time zone. *)
Variable datetime_str : Z -> string.

(** The order in which a [for] loop visits [set(parameters)]. *)
Variable set_iter : list string -> list string.

(** The fields [self._main_command] and [self._arguments]. *)
Variable self : Parser.t.

Definition _main_command : option string := Parser.main_command self.
Definition _arguments : list string := Parser.arguments self.

Definition _able_to_receive_arguments (method : Command) : list string :=
  getfullargspec_args method.

Definition echo (arguments : list string) (w : world)
  : list event * world * status :=
  let args := if truthy arguments then arguments else _arguments in
  ([Print (PyStr.join " " args)], w, Continue).

Definition exit (w : world) : list event * world * status :=
  ([], w, SystemExit 0).

Definition clear (w : world) : list event * world * status :=
  ([ClearScreen], w, Continue).

Definition pwd (w : world) : list event * world * status :=
  ([Print (path_str (cwd w))], w, Continue).

Definition history (w : world) : list event * world * status :=
  let '(out, st) := History.show w in (out, w, st).

Definition cd (argument_path : list string) (w : world)
  : list event * world * status :=
  let path := if truthy argument_path
              then String.concat "" argument_path
              else home w in
  match os_chdir w (abspath_str w path) (abspath w path) with
  | Ok w' => pwd w'
  | Raise FileNotFoundError =>
      ([Print ("cd: no such file or directory: " ++ path)], w, Continue)
  | Raise e => ([], w, Uncaught e)
  end.

Definition _validate_ls_path_argument (w : world) (path_argument : string)
  : result string :=
  found <- Path_exists w path_argument ;;
  if found then Ok path_argument
  else Raise (ValueError ("ls: cannot access '" ++ path_argument
                          ++ "': No such file or directory")).

(** The loop of [_parse_ls_arguments] over the arguments still to
    visit. *)
Fixpoint parse_ls_loop (w : world) (arguments : list string)
  (ls_args : list string) (path : string) : result (list string * string) :=
  match arguments with
  | [] => Ok (ls_args, path)
  | argument :: rest =>
      if PyStr.startswith "-" argument
      then parse_ls_loop w rest (tl (PyStr.chars argument)) path
      else
        path' <- _validate_ls_path_argument w argument ;;
        parse_ls_loop w rest ls_args path'
  end.

Definition _parse_ls_arguments (w : world) (arguments : list string)
  : result (list string * string) :=
  parse_ls_loop w arguments [] (path_str (cwd w)).

Definition _format_ls_long_listing (name : string) (item : node) : string :=
  let stats := stat_of item in
  _format_path_permissions_levels (st_mode stats) ++ " "
  ++ PyStr.str_of_Z (st_nlink stats) ++ " "
  ++ i_owner (node_inode item) ++ " "
  ++ i_group (node_inode item) ++ "  "
  ++ PyStr.str_of_Z (st_size stats) ++ " "
  ++ datetime_str (st_ctime stats) ++ " "
  ++ name.

Definition _get_no_hidden_items_from_path (items : list (string * node))
  : list (string * node) :=
  filter (fun path_item => negb (PyStr.startswith "." (fst path_item))) items.

(** The body of both [for path_item] loops of [ls]. *)
Definition print_item (ls_args : list string) (path_item : string * node)
  : event :=
  if PyStr.mem LsArguments_L ls_args
  then Print (_format_ls_long_listing (fst path_item) (snd path_item))
  else Print (fst path_item).

Definition ls (parameters : list string) (w : world)
  : list event * world * status :=
  let arguments := set_iter parameters in
  match _parse_ls_arguments w arguments with
  | Raise (ValueError e) => ([Print e], w, Continue)
  | Raise e => ([], w, Uncaught e)
  | Ok (ls_args, path) =>
      match Path_iterdir w path with
      | Raise e => ([], w, Uncaught e)
      | Ok items =>
          if negb (truthy ls_args) || negb (PyStr.mem LsArguments_A ls_args)
          then
            let no_hidden_items := _get_no_hidden_items_from_path items in
            (map (print_item ls_args) no_hidden_items, w, Continue)
          else (map (print_item ls_args) items, w, Continue)
      end
  end.

(** Calling a command method with the argument list, or without one
    (every parameter then takes its default, the empty list). *)
Definition call (method : Command) (arguments : option (list string))
  (w : world) : list event * world * status :=
  let given := match arguments with Some l => l | None => [] end in
  match method with
  | ECHO => echo given w
  | CD => cd given w
  | LS => ls given w
  | PWD => pwd w
  | EXIT => exit w
  | CLEAR => clear w
  | HISTORY => history w
  end.

(** [getattr] then the call.  Only the command methods are ever looked
    up here (see [validated_names_are_handlers_or_absent] below); calling
    another member is rendered as a [TypeError]. *)
Definition _execute_command (main_command : string) (w : world)
  : list event * world * status :=
  match getattr main_command with
  | Some (Handler method) =>
      if truthy _arguments && truthy (_able_to_receive_arguments method)
      then call method (Some _arguments) w
      else call method None w
  | Some Member => ([], w, Uncaught TypeError)
  | None => ([], w, Uncaught AttributeError)
  end.

Definition run (w : world) : list event * world * status :=
  match _main_command with
  | Some main_command =>
      if negb (main_command =? "")%string && hasattr main_command
      then _execute_command main_command w
      else ([], w, Continue)
  | None => ([], w, Continue)
  end.

End CommandManager.

(* ===================================================================== *)
(** ** main (lines 240-249) *)
(* ===================================================================== *)

Section Main.

Variable datetime_str : Z -> string.
Variable set_iter : list string -> list string.

(** Lines 248-249: the history check and the write it guards. *)
Definition record_history (timestamp : string) (source_command : string)
  (w : world) : world * status :=
  match History.is_not_equal_last_history_record w source_command with
  | Raise e => (w, Uncaught e)
  | Ok true =>
      match History.write_history timestamp source_command w with
      | Raise e => (w, Uncaught e)
      | Ok w' => (w', Continue)
      end
  | Ok false => (w, Continue)
  end.

(** One turn of the [while True] loop after [input] returned
    [source_command]; [timestamp] is what [datetime.now().timestamp()]
    prints as, should the history be written. *)
Definition main_iteration (timestamp : string) (source_command : string)
  (w : world) : list event * world * status :=
  let '(out1, parser) := Parser.init source_command in
  let '(out2, w1, st) := run datetime_str set_iter parser w in
  match st with
  | Continue =>
      let '(w2, st') := record_history timestamp source_command w1 in
      ((out1 ++ out2)%list, w2, st')
  | _ => ((out1 ++ out2)%list, w1, st)
  end.

(** The loop over the lines [input] will return, each with the clock
    reading of its turn; at the end of the input [input] raises
    [EOFError]. *)
Fixpoint main_loop (inputs : list (string * string)) (w : world)
  : list event * world * status :=
  match inputs with
  | [] => ([Prompt "% "], w, Uncaught EOFError)
  | (timestamp, source_command) :: rest =>
      let '(out, w1, st) := main_iteration timestamp source_command w in
      match st with
      | Continue =>
          let '(out', w2, st') := main_loop rest w1 in
          ((Prompt "% " :: out ++ out')%list, w2, st')
      | _ => (Prompt "% " :: out, w1, st)
      end
  end.

Definition main (inputs : list (string * string)) (w : world)
  : list event * world * status :=
  match History.init w with
  | Raise e => ([], w, Uncaught e)
  | Ok w0 => main_loop inputs w0
  end.

End Main.

(* ===================================================================== *)
(** ** Definitions used to state the properties *)
(* ===================================================================== *)

(** A rendering of [str(datetime.fromtimestamp(t))] for a whole number
    of seconds [t] in a process whose time zone is UTC. *)
Module Datetime.

Definition pad (width : nat) (n : Z) : string :=
  let s := PyStr.str_of_Z n in
  String.concat "" (repeat "0" (width - String.length s)) ++ s.

(** Year, month and day of the day number [days] counted from
    1970-01-01 (proleptic Gregorian calendar). *)
Definition civil_from_days (days : Z) : Z * Z * Z :=
  let z := days + 719468 in
  let era := z / 146097 in
  let doe := z - era * 146097 in
  let yoe := (doe - doe / 1460 + doe / 36524 - doe / 146096) / 365 in
  let doy := doe - (365 * yoe + yoe / 4 - yoe / 100) in
  let mp := (5 * doy + 2) / 153 in
  let d := doy - (153 * mp + 2) / 5 + 1 in
  let m := if mp <? 10 then mp + 3 else mp - 9 in
  let y := yoe + era * 400 + (if m <=? 2 then 1 else 0) in
  (y, m, d).

Definition utc_str (t : Z) : string :=
  let '(y, m, d) := civil_from_days (t / 86400) in
  let s := t mod 86400 in
  pad 4 y ++ "-" ++ pad 2 m ++ "-" ++ pad 2 d ++ " "
  ++ pad 2 (s / 3600) ++ ":" ++ pad 2 (s mod 3600 / 60) ++ ":"
  ++ pad 2 (s mod 60).

End Datetime.

(** The long-listing line as the specification words it: the time field
    is the modification time. *)
Definition spec_long_listing (datetime_str : Z -> string) (name : string)
  (item : node) : string :=
  _format_path_permissions_levels (st_mode (stat_of item)) ++ " "
  ++ PyStr.str_of_Z (st_nlink (stat_of item)) ++ " "
  ++ i_owner (node_inode item) ++ " "
  ++ i_group (node_inode item) ++ "  "
  ++ PyStr.str_of_Z (st_size (stat_of item)) ++ " "
  ++ datetime_str (st_mtime (stat_of item)) ++ " "
  ++ name.

(** [set_iter] visits exactly the elements of the argument list. *)
Definition enumerates (set_iter : list string -> list string) : Prop :=
  forall l x, In x (set_iter l) <-> In x l.

(** One possible iteration order: every element once, where it occurs
    last. *)
Definition first_seen (l : list string) : list string :=
  nodup string_dec l.

(** The character at a permission position: [symbol] when bit [bit] of
    the mode is set, a dash otherwise. *)
Definition symbol_at (st_mode : Z) (bit : Z) (symbol : ascii) : ascii :=
  if Z.testbit st_mode bit then symbol else "-"%char.

(** The mode whose only permission bits are the owner's [r], [w], [x]. *)
Definition owner_mode (r w x : bool) : Z :=
  (if r then stat.S_IRUSR else 0) + (if w then stat.S_IWUSR else 0)
  + (if x then stat.S_IXUSR else 0).

(** An entry is hidden when its name starts with a dot. *)
Definition hidden (path_item : string * node) : bool :=
  PyStr.startswith "." (fst path_item).

(** Does [c] occur in [s]? *)
Fixpoint occurs (c : ascii) (s : string) : bool :=
  match s with
  | EmptyString => false
  | String a s' => Ascii.eqb a c || occurs c s'
  end.

(** The contents of a history file holding [records], each a clock
    reading and a command text. *)
Definition record_line (r : string * string) : string :=
  fst r ++ ":" ++ snd r ++ String History.newline "".

Definition history_contents (records : list (string * string)) : string :=
  String.concat "" (map record_line records).

(** A record as [write_history] produces it: the clock reading has no
    colon, neither field has a line break. *)
Definition well_formed_record (r : string * string) : bool :=
  negb (occurs History.newline (fst r)) && negb (occurs ":" (fst r))
  && negb (occurs History.newline (snd r)).

(** The working directory holds a history file with these [records], and
    is a normalised path. *)
Definition history_in_cwd (w : world) (records : list (string * string))
  : Prop :=
  (exists up i, walk [] (root w) (cwd w ++ [History.HISTORY_FILE_NAME])
                = Ok (up, File i (history_contents records)))
  /\ forallb well_formed_record records = true
  /\ forallb (fun c => negb (c =? "..")%string) (cwd w) = true.

(** The text a command line leaves in the last record as the check
    reads it back: up to the first colon, stripped. *)
Definition read_back (source_command : string) : string :=
  PyStr.strip (hd "" (PyStr.split_on ":"
                        (source_command ++ String History.newline ""))).

(** What the check answers for a history holding [records]: append when
    there is none, when the command text is empty, or when the text read
    back from the last record differs from it. *)
Definition dedup_verdict (records : list (string * string))
  (source_command : string) : bool :=
  match records with
  | [] => true
  | _ :: _ =>
      (source_command =? "")%string
      || negb (read_back (snd (last records ("", ""))) =? source_command)%string
  end.

(** A small tree: /home/u holds a regular file [f] of four bytes, a
    hidden file, an executable and an empty history file; /tmp is an
    empty directory. *)
Module Sample.

Definition ino (mode : Z) : inode :=
  {| i_mode := mode; i_nlink := 1; i_owner := "u"; i_group := "g";
     i_mtime := 0; i_ctime := 86400 |}.

Definition home_u (history : string) : node :=
  Dir (ino 16877) 4096
    [("f", File (ino 33188) "abcd");
     (".hidden", File (ino 33188) "");
     ("visible", File (ino 33261) "xy");
     (".history_shell", File (ino 33188) history)].

Definition tree (history : string) : node :=
  Dir (ino 16877) 4096
    [("home", Dir (ino 16877) 4096 [("u", home_u history)]);
     ("tmp", Dir (ino 16877) 4096 [])].

Definition world_with (history : string) : world :=
  {| root := tree history; cwd := ["home"; "u"]; home := "/home/u";
     creat_inode := ino 33188 |}.

Definition w0 : world := world_with "".

End Sample.

(** ** Further definitions used to state properties *)

(** A line made of white space only (the empty line included). *)
Fixpoint blank (s : string) : bool :=
  match s with
  | EmptyString => true
  | String c s' => PyStr.isspace c && blank s'
  end.

(** A string without white space. *)
Fixpoint spaceless (s : string) : bool :=
  match s with
  | EmptyString => true
  | String c s' => negb (PyStr.isspace c) && spaceless s'
  end.

(** A word: non-empty and without white space. *)
Definition word (s : string) : bool :=
  negb (s =? "")%string && spaceless s.

(** The parser state for a line whose first token is the value of [c]
    and whose other tokens are [rest]. *)
Definition parsed (c : Command) (rest : list string) : Parser.t :=
  {| Parser.tokens := Command_value c :: rest;
     Parser.main_command := Some (Command_value c);
     Parser.arguments := rest |}.

(** A path component as [os.getcwd()] has them: not empty, not ["."],
    not [".."]. *)
Definition plain_component (c : string) : bool :=
  negb ((c =? "") || (c =? ".") || (c =? ".."))%string.

(** The working directory is a normalised path to a directory. *)
Definition cwd_valid (w : world) : Prop :=
  forallb plain_component (cwd w) = true
  /\ exists up i size entries,
       walk [] (root w) (cwd w) = Ok (up, Dir i size entries).

(** The nine permission bits of a mode. *)
Definition permission_bits (st_mode : Z) : Z := Z.land st_mode 511.

(** The line [History.show] prints for the record at [index]. *)
Definition history_line (index : nat) (r : string * string) : event :=
  Print (PyStr.str_of_Z (Z.of_nat index) ++ "  " ++ read_back (snd r)).

(** A line whose first token is not a command name in any case. *)
Definition unknown_line (source_command : string) : bool :=
  match Parser._tokenize source_command with
  | t :: _ => negb (PyStr.mem (PyStr.upper t) Command_member_names)
  | [] => false
  end.

(** What a session prints for a line of that kind: the prompt, then the
    message. *)
Definition unknown_line_output (input : string * string) : list event :=
  [Prompt "% ";
   Print ("Command not found: " ++ hd "" (Parser._tokenize (snd input)))].



(** A record without carriage return. *)
Definition no_carriage_return (r : string * string) : bool :=
  negb (occurs "013" (fst r)) && negb (occurs "013" (snd r)).

(* ===================================================================== *)
(** * Properties *)
(* ===================================================================== *)

(** ** Permission formatter *)

Lemma land_pow2_eqb (m k : Z) :
  0 <= k -> (Z.land m (2 ^ k) =? 0) = negb (Z.testbit m k).
Proof.
  intros Hk. destruct (Z.testbit m k) eqn:E; simpl.
  - apply Z.eqb_neq. intros H0.
    assert (T : Z.testbit (Z.land m (2 ^ k)) k = true).
    { rewrite Z.land_spec, E, Z.pow2_bits_true by assumption. reflexivity. }
    rewrite H0, Z.bits_0 in T. discriminate.
  - apply Z.eqb_eq. apply Z.bits_inj'. intros n Hn.
    rewrite Z.land_spec, Z.bits_0, Z.pow2_bits_eqb by assumption.
    destruct (Z.eqb_spec k n) as [->|_].
    + rewrite E. reflexivity.
    + apply andb_false_r.
Qed.

Lemma level_symbol (st_mode k : Z) (symbol : ascii) (permissions : string) :
  0 <= k ->
  (if negb (Z.land st_mode (2 ^ k) =? 0)
   then permissions ++ String symbol ""
   else permissions ++ "-")
  = permissions ++ String (symbol_at st_mode k symbol) "".
Proof.
  intros Hk. rewrite land_pow2_eqb by assumption. unfold symbol_at.
  destruct (Z.testbit st_mode k); reflexivity.
Qed.

Lemma format_path_permissions_levels_chars (st_mode : Z) :
  _format_path_permissions_levels st_mode
  = String (if stat.S_ISDIR st_mode then "d" else "-")%char
      (String (symbol_at st_mode 8 "r")
      (String (symbol_at st_mode 7 "w")
      (String (symbol_at st_mode 6 "x")
      (String (symbol_at st_mode 5 "r")
      (String (symbol_at st_mode 4 "w")
      (String (symbol_at st_mode 3 "x")
      (String (symbol_at st_mode 2 "r")
      (String (symbol_at st_mode 1 "w")
      (String (symbol_at st_mode 0 "x") ""))))))))).
Proof.
  unfold _format_path_permissions_levels, _format_owner_permissions,
    _format_group_permissions, _format_others_permissions, format_levels.
  cbn [fold_left enumerate_from Permissions.OWNER Permissions.GROUP
       Permissions.OTHERS nth PERMISSIONS_SYMBOLS EMPTY_PERMISSION_SYMBOL].
  change stat.S_IRUSR with (2 ^ 8). change stat.S_IWUSR with (2 ^ 7).
  change stat.S_IXUSR with (2 ^ 6). change stat.S_IRGRP with (2 ^ 5).
  change stat.S_IWGRP with (2 ^ 4). change stat.S_IXGRP with (2 ^ 3).
  change stat.S_IROTH with (2 ^ 2). change stat.S_IWOTH with (2 ^ 1).
  change stat.S_IXOTH with (2 ^ 0).
  rewrite !level_symbol by lia.
  destruct (stat.S_ISDIR st_mode); reflexivity.
Qed.

Lemma format_path_permissions_levels_length (st_mode : Z) :
  String.length (_format_path_permissions_levels st_mode) = 10%nat.
Proof. rewrite format_path_permissions_levels_chars. reflexivity. Qed.

(** C2.  The permission formatter returns, for every mode, the ten
    characters: [d] or [-] according to [S_ISDIR], then r/w/x or [-] for
    the owner bits 8, 7, 6, the group bits 5, 4, 3 and the other bits 2,
    1, 0; and for each of the eight combinations of owner bits the owner
    segment (positions 1-3) is the matching r|-, w|-, x|- pattern. *)
Theorem permissions_string_layout :
  (forall st_mode : Z,
      _format_path_permissions_levels st_mode
      = String (if stat.S_ISDIR st_mode then "d" else "-")%char
          (String (symbol_at st_mode 8 "r")
          (String (symbol_at st_mode 7 "w")
          (String (symbol_at st_mode 6 "x")
          (String (symbol_at st_mode 5 "r")
          (String (symbol_at st_mode 4 "w")
          (String (symbol_at st_mode 3 "x")
          (String (symbol_at st_mode 2 "r")
          (String (symbol_at st_mode 1 "w")
          (String (symbol_at st_mode 0 "x") "")))))))))
      /\ String.length (_format_path_permissions_levels st_mode) = 10%nat)
  /\ (forall r w x : bool,
         substring 1 3 (_format_path_permissions_levels (owner_mode r w x))
         = String (if r then "r" else "-")%char
             (String (if w then "w" else "-")%char
             (String (if x then "x" else "-")%char ""))).
Proof.
  split.
  - intros st_mode. split.
    + apply format_path_permissions_levels_chars.
    + apply format_path_permissions_levels_length.
  - intros r w x. destruct r, w, x; reflexivity.
Qed.

(** ** Long listing *)

(** C1 as stated does not hold: the time field is not the modification
    time.  A file last written at the epoch whose inode changed a day
    later is listed with the later instant. *)
Lemma long_listing_time_is_not_mtime :
  ~ (forall (datetime_str : Z -> string) (name : string) (item : node),
        _format_ls_long_listing datetime_str name item
        = spec_long_listing datetime_str name item).
Proof.
  intros H.
  specialize (H Datetime.utc_str "f" (File (Sample.ino 33188) "abcd")).
  vm_compute in H. discriminate H.
Qed.

(** C1, amended.  Every entry [ls] renders in long mode gives the line
    <permissions10> <linkCount> <owner> <group>  <sizeBytes> <time> <name>
    with two spaces before the size and single spaces elsewhere, where
    the time field renders the inode change time [st_ctime]. *)
Theorem long_listing_line_format :
  forall (datetime_str : Z -> string) (ls_args : list string)
         (name : string) (item : node),
    PyStr.mem LsArguments_L ls_args = true ->
    print_item datetime_str ls_args (name, item)
    = Print (_format_path_permissions_levels (i_mode (node_inode item))
             ++ " " ++ PyStr.str_of_Z (i_nlink (node_inode item))
             ++ " " ++ i_owner (node_inode item)
             ++ " " ++ i_group (node_inode item)
             ++ "  " ++ PyStr.str_of_Z (st_size (stat_of item))
             ++ " " ++ datetime_str (i_ctime (node_inode item))
             ++ " " ++ name)
    /\ String.length
         (_format_path_permissions_levels (i_mode (node_inode item)))
       = 10%nat.
Proof.
  intros datetime_str ls_args name item Hl. split.
  - unfold print_item. rewrite Hl. reflexivity.
  - apply format_path_permissions_levels_length.
Qed.

Lemma long_listing_line_format_witness :
  PyStr.mem LsArguments_L ["l"] = true
  /\ print_item Datetime.utc_str ["l"] ("f", File (Sample.ino 33188) "abcd")
     = Print "-rw-r--r-- 1 u g  4 1970-01-02 00:00:00 f".
Proof.
  split; [reflexivity|].
  exact (proj1 (long_listing_line_format Datetime.utc_str ["l"] "f"
                  (File (Sample.ino 33188) "abcd") eq_refl)).
Defined.

(** ** ls: missing path, hidden entries *)




Lemma first_seen_enumerates : enumerates first_seen.
Proof. intros l x. apply nodup_In. Qed.


(** C7.  Once the arguments are parsed into the flag list [ls_args] and
    the target lists [items]: without [a] among the flags (the empty
    flag list included) exactly the entries whose name does not start
    with a dot are printed, in order; with [a] every entry is. *)
Theorem ls_hidden_filter :
  forall (datetime_str : Z -> string) (set_iter : list string -> list string)
         (parameters : list string) (w : world)
         (ls_args : list string) (path : string)
         (items : list (string * node)),
    _parse_ls_arguments w (set_iter parameters) = Ok (ls_args, path) ->
    Path_iterdir w path = Ok items ->
    ls datetime_str set_iter parameters w
    = (map (print_item datetime_str ls_args)
           (if PyStr.mem LsArguments_A ls_args
            then items
            else filter (fun path_item => negb (hidden path_item)) items),
       w, Continue).
Proof.
  intros datetime_str set_iter parameters w ls_args path items Hparse Hiter.
  unfold ls. rewrite Hparse, Hiter.
  destruct (PyStr.mem LsArguments_A ls_args) eqn:Ha.
  - destruct ls_args as [|flag flags]; [discriminate Ha|]. reflexivity.
  - rewrite orb_true_r. reflexivity.
Qed.

Lemma ls_hidden_filter_witness :
  ls Datetime.utc_str first_seen [] Sample.w0
  = ([Print "f"; Print "visible"], Sample.w0, Continue)
  /\ ls Datetime.utc_str first_seen ["-a"] Sample.w0
     = ([Print "f"; Print ".hidden"; Print "visible";
         Print ".history_shell"], Sample.w0, Continue).
Proof.
  split.
  - exact (ls_hidden_filter Datetime.utc_str first_seen [] Sample.w0
             [] "/home/u" _ eq_refl eq_refl).
  - exact (ls_hidden_filter Datetime.utc_str first_seen ["-a"] Sample.w0
             ["a"] "/home/u" _ eq_refl eq_refl).
Defined.

(** ** Parsing and dispatch *)

Lemma mem_In (x : string) (l : list string) :
  PyStr.mem x l = true <-> In x l.
Proof.
  unfold PyStr.mem. rewrite existsb_exists. split.
  - intros [y [Hy E]]. apply String.eqb_eq in E. subst. exact Hy.
  - intros H. exists x. split; [exact H | apply String.eqb_refl].
Qed.

(** The members of the class other than the seven command methods are
    never accepted by the validator. *)
Lemma other_members_rejected (name : string) :
  PyStr.mem name other_members = true ->
  PyStr.mem (PyStr.upper name) Command_member_names = false.
Proof.
  intros H. apply mem_In in H. unfold other_members in H. simpl in H.
  repeat (destruct H as [<-|H]; [reflexivity|]). destruct H.
Qed.

(** A validated name is a command method or no attribute at all. *)
Lemma validated_names_are_handlers_or_absent (name : string) :
  Parser._validate_main_command name = Ok tt ->
  getattr name <> Some Member.
Proof.
  unfold Parser._validate_main_command, getattr. intros H.
  destruct (handler_of_name name); [discriminate|].
  destruct (PyStr.mem name other_members) eqn:E; [|discriminate].
  rewrite (other_members_rejected _ E) in H. discriminate H.
Qed.

Lemma handler_names_lowercase (name : string) (c : Command) :
  handler_of_name name = Some c -> PyStr.lower name = name.
Proof.
  unfold handler_of_name.
  repeat match goal with
         | |- context [String.eqb name ?s] =>
             destruct (String.eqb_spec name s) as [->|_]; [reflexivity|]
         end.
  discriminate.
Qed.

Lemma not_lowercase_no_attribute (t : string) :
  PyStr.mem (PyStr.upper t) Command_member_names = true ->
  PyStr.lower t <> t ->
  hasattr t = false.
Proof.
  intros Hvalid Hcase. unfold hasattr, getattr.
  destruct (handler_of_name t) eqn:Hh.
  - exfalso. apply Hcase. eapply handler_names_lowercase. exact Hh.
  - destruct (PyStr.mem t other_members) eqn:E; [|reflexivity].
    rewrite (other_members_rejected _ E) in Hvalid. discriminate Hvalid.
Qed.

(** C10.  A line whose first token upper-cases to a command name but is
    not all lowercase is accepted by the parser without any message,
    finds no handler, prints nothing, and leaves only what the history
    step does. *)
Theorem mixed_case_command_silent_noop :
  forall (datetime_str : Z -> string) (set_iter : list string -> list string)
         (timestamp line : string) (w : world) (t : string)
         (rest : list string),
    Parser._tokenize line = t :: rest ->
    PyStr.mem (PyStr.upper t) Command_member_names = true ->
    PyStr.lower t <> t ->
    Parser.init line
    = ([], {| Parser.tokens := t :: rest;
              Parser.main_command := Some t;
              Parser.arguments := rest |})
    /\ run datetime_str set_iter (snd (Parser.init line)) w
       = ([], w, Continue)
    /\ main_iteration datetime_str set_iter timestamp line w
       = ([], fst (record_history timestamp line w),
          snd (record_history timestamp line w)).
Proof.
  intros datetime_str set_iter timestamp line w t rest Htok Hvalid Hcase.
  assert (Hinit : Parser.init line
                  = ([], {| Parser.tokens := t :: rest;
                            Parser.main_command := Some t;
                            Parser.arguments := rest |})).
  { unfold Parser.init, Parser._parse_main_command,
      Parser._validate_main_command.
    rewrite Htok, Hvalid. reflexivity. }
  assert (Hrun : run datetime_str set_iter (snd (Parser.init line)) w
                 = ([], w, Continue)).
  { rewrite Hinit. unfold run, _main_command. cbn [snd Parser.main_command].
    rewrite (not_lowercase_no_attribute t Hvalid Hcase).
    rewrite andb_false_r. reflexivity. }
  repeat split; [exact Hinit | exact Hrun |].
  unfold main_iteration. rewrite Hinit in *. cbn [snd] in Hrun.
  rewrite Hrun.
  destruct (record_history timestamp line w). reflexivity.
Qed.

Lemma mixed_case_command_silent_noop_witness :
  Parser.init "Ls -la"
  = ([], {| Parser.tokens := ["Ls"; "-la"];
            Parser.main_command := Some "Ls";
            Parser.arguments := ["-la"] |})
  /\ run Datetime.utc_str first_seen (snd (Parser.init "Ls -la")) Sample.w0
     = ([], Sample.w0, Continue)
  /\ main_iteration Datetime.utc_str first_seen "1.5" "Ls -la" Sample.w0
     = ([], fst (record_history "1.5" "Ls -la" Sample.w0),
        snd (record_history "1.5" "Ls -la" Sample.w0)).
Proof.
  apply (mixed_case_command_silent_noop Datetime.utc_str first_seen
           "1.5" "Ls -la" Sample.w0 "Ls" ["-la"]).
  - reflexivity.
  - reflexivity.
  - discriminate.
Defined.

(** C4 fails on the code at the line [CD /tmp]: the validator accepts
    the token, yet [run] finds no attribute of that name and returns
    without calling [cd], while [cd /tmp] does change directory. *)
Theorem uppercase_command_not_dispatched :
  Parser._validate_main_command "CD" = Ok tt
  /\ run Datetime.utc_str first_seen (snd (Parser.init "CD /tmp")) Sample.w0
     = ([], Sample.w0, Continue)
  /\ run Datetime.utc_str first_seen (snd (Parser.init "cd /tmp")) Sample.w0
     = ([Print "/tmp"], set_cwd Sample.w0 ["tmp"], Continue).
Proof. repeat split. Qed.

(** ** Strings *)

Section StringFacts.

Local Open Scope nat_scope.

Lemma append_assoc (a b c : string) : ((a ++ b) ++ c = a ++ (b ++ c))%string.
Proof. induction a as [|x a IH]; simpl; [reflexivity | now rewrite IH]. Qed.

Lemma append_nil_r (a : string) : (a ++ "")%string = a.
Proof. induction a as [|x a IH]; simpl; [reflexivity | now rewrite IH]. Qed.

Lemma length_append (a b : string) :
  String.length (a ++ b) = String.length a + String.length b.
Proof. induction a as [|x a IH]; simpl; [reflexivity | now rewrite IH]. Qed.

Lemma get_append_right (pre s : string) (k : nat) :
  String.get (String.length pre + k) (pre ++ s) = String.get k s.
Proof. induction pre as [|x pre IH]; simpl; [reflexivity | exact IH]. Qed.

Lemma get_append_left (pre s : string) (n : nat) :
  n < String.length pre -> String.get n (pre ++ s) = String.get n pre.
Proof.
  revert n. induction pre as [|x pre IH]; simpl; intros n Hn; [lia|].
  destruct n as [|n]; [reflexivity|]. apply IH. lia.
Qed.

Lemma get_in_range (s : string) (n : nat) :
  n < String.length s -> exists ch, String.get n s = Some ch.
Proof.
  revert n. induction s as [|x s IH]; simpl; intros n Hn; [lia|].
  destruct n as [|n]; [now exists x|]. apply IH. lia.
Qed.

Lemma occurs_get (c : ascii) (s : string) (n : nat) (ch : ascii) :
  occurs c s = false -> String.get n s = Some ch -> Ascii.eqb ch c = false.
Proof.
  revert n. induction s as [|x s IH]; simpl; intros n Hocc Hget.
  - discriminate.
  - apply orb_false_iff in Hocc. destruct Hocc as [Hx Hs].
    destruct n as [|n].
    + injection Hget as <-. exact Hx.
    + eapply IH; eassumption.
Qed.

Lemma occurs_append (c : ascii) (a b : string) :
  occurs c (a ++ b) = occurs c a || occurs c b.
Proof.
  induction a as [|x a IH]; simpl; [reflexivity|].
  rewrite IH. apply orb_assoc.
Qed.

Lemma drop_append (pre s : string) :
  History.drop (String.length pre) (pre ++ s) = s.
Proof. induction pre as [|x pre IH]; simpl; [reflexivity | exact IH]. Qed.

Lemma readline_whole_line (line : string) :
  occurs History.newline line = false ->
  History.readline (line ++ String History.newline "")
  = (line ++ String History.newline "")%string.
Proof.
  induction line as [|x line IH]; simpl; intros H; [reflexivity|].
  apply orb_false_iff in H. destruct H as [Hx Hl].
  rewrite Hx, IH by exact Hl. reflexivity.
Qed.

Lemma split_on_nonempty (sep : ascii) (s : string) :
  PyStr.split_on sep s = hd ""%string (PyStr.split_on sep s)
                         :: tl (PyStr.split_on sep s).
Proof.
  destruct s as [|x s]; simpl; [reflexivity|].
  destruct (Ascii.eqb x sep); [reflexivity|].
  destruct (PyStr.split_on sep s); reflexivity.
Qed.

Lemma split_on_first_field (sep : ascii) (field rest : string) :
  occurs sep field = false ->
  PyStr.split_on sep (field ++ String sep rest)
  = field :: PyStr.split_on sep rest.
Proof.
  induction field as [|x field IH]; simpl; intros H.
  - rewrite Ascii.eqb_refl. reflexivity.
  - apply orb_false_iff in H. destruct H as [Hx Hf].
    rewrite Hx, IH by exact Hf. reflexivity.
Qed.

End StringFacts.

(** ** The history file *)

Section HistoryFacts.

Local Open Scope nat_scope.

Lemma concat_cons (x : string) (l : list string) :
  String.concat "" (x :: l) = (x ++ String.concat "" l)%string.
Proof.
  destruct l as [|y l]; simpl; [now rewrite append_nil_r | reflexivity].
Qed.

Lemma history_contents_cons (r : string * string)
  (records : list (string * string)) :
  history_contents (r :: records)
  = (record_line r ++ history_contents records)%string.
Proof. unfold history_contents. cbn [map]. apply concat_cons. Qed.

Lemma history_contents_snoc (records : list (string * string))
  (r : string * string) :
  history_contents (records ++ [r])
  = (history_contents records ++ record_line r)%string.
Proof.
  induction records as [|x records IH].
  - cbn [app]. rewrite history_contents_cons.
    unfold history_contents at 1 2. simpl. now rewrite append_nil_r.
  - cbn [app]. rewrite !history_contents_cons, IH. now rewrite append_assoc.
Qed.

(** The contents are empty or end with a line break. *)
Lemma history_contents_ends (records : list (string * string)) :
  history_contents records = ""%string
  \/ exists p, history_contents records
               = (p ++ String History.newline "")%string.
Proof.
  destruct records as [|r0 records0]; [left; reflexivity | right].
  destruct (exists_last (l := r0 :: records0)) as [init [r ->]];
    [discriminate|].
  rewrite history_contents_snoc. unfold record_line.
  exists (history_contents init ++ fst r ++ ":" ++ snd r)%string.
  now rewrite !append_assoc.
Qed.

Lemma scan_back_unfold (data : string) (pos : nat) :
  History.scan_back data pos
  = match String.get pos data with
    | Some c =>
        if Ascii.eqb c History.newline then S pos
        else match pos with
             | O => O
             | S p => History.scan_back data p
             end
    | None =>
        match pos with
        | O => O
        | S p => History.scan_back data p
        end
    end.
Proof. destruct pos; reflexivity. Qed.

(** Scanning back from inside the last line stops at its first byte. *)
Lemma scan_back_line (pre line : string) :
  (pre = ""%string \/ exists p, pre = (p ++ String History.newline "")%string) ->
  occurs History.newline line = false ->
  forall k, k < String.length line ->
    History.scan_back (pre ++ line ++ String History.newline "")
      (String.length pre + k)
    = String.length pre.
Proof.
  intros Hpre Hline k. induction k as [|k IH]; intros Hk.
  - rewrite scan_back_unfold, get_append_right, get_append_left by exact Hk.
    destruct (get_in_range line 0 Hk) as [ch Hch]. rewrite Hch.
    rewrite (occurs_get _ _ _ _ Hline Hch).
    destruct Hpre as [->|[p ->]]; [reflexivity|].
    rewrite length_append. cbn [String.length].
    replace (String.length p + 1 + 0) with (S (String.length p)) by lia.
    rewrite scan_back_unfold, !append_assoc.
    replace (String.length p) with (String.length p + 0) at 1 by lia.
    rewrite get_append_right. cbn. lia.
  - rewrite scan_back_unfold, get_append_right, get_append_left by exact Hk.
    destruct (get_in_range line (S k) Hk) as [ch Hch]. rewrite Hch.
    rewrite (occurs_get _ _ _ _ Hline Hch).
    replace (String.length pre + S k) with (S (String.length pre + k)) by lia.
    apply IH. lia.
Qed.

Lemma last_line_offset_line (pre line : string) :
  (pre = ""%string \/ exists p, pre = (p ++ String History.newline "")%string) ->
  occurs History.newline line = false ->
  line <> ""%string ->
  History.last_line_offset (pre ++ line ++ String History.newline "")
  = String.length pre.
Proof.
  intros Hpre Hline Hne. unfold History.last_line_offset.
  rewrite !length_append. cbn [String.length].
  destruct line as [|x line]; [congruence|]. cbn [String.length].
  destruct (Nat.ltb_spec (String.length pre + (S (String.length line) + 1)) 2);
    [lia|].
  replace (String.length pre + (S (String.length line) + 1) - 2)
    with (String.length pre + String.length line) by lia.
  apply (scan_back_line pre (String x line) Hpre Hline).
  cbn [String.length]. lia.
Qed.

(** What the check reads from a file ending with a well-formed record. *)
Lemma last_record_field (records : list (string * string))
  (r : string * string) :
  well_formed_record r = true ->
  let data := history_contents (records ++ [r]) in
  History.command_field
    (History.readline (History.drop (History.last_line_offset data) data))
  = Ok (read_back (snd r)).
Proof.
  intros Hwf data. subst data.
  unfold well_formed_record in Hwf.
  apply andb_true_iff in Hwf. destruct Hwf as [Hwf Htext].
  apply andb_true_iff in Hwf. destruct Hwf as [Hts Hcolon].
  apply negb_true_iff in Hts, Hcolon, Htext.
  rewrite history_contents_snoc. unfold record_line.
  set (pre := history_contents records).
  set (line := (fst r ++ ":" ++ snd r)%string).
  assert (Hline : occurs History.newline line = false).
  { unfold line. rewrite !occurs_append, Hts, Htext. reflexivity. }
  assert (Hne : line <> ""%string).
  { unfold line. destruct (fst r); discriminate. }
  replace (pre ++ fst r ++ ":" ++ snd r ++ String History.newline "")%string
    with (pre ++ line ++ String History.newline "")%string
    by (unfold line; now rewrite !append_assoc).
  rewrite (last_line_offset_line pre line (history_contents_ends records)
             Hline Hne).
  rewrite drop_append, (readline_whole_line line Hline).
  unfold History.command_field, line.
  rewrite !append_assoc. cbn [append].
  rewrite (split_on_first_field ":" (fst r) _ Hcolon).
  rewrite (split_on_nonempty ":" (snd r ++ String History.newline "")).
  reflexivity.
Qed.

Lemma history_contents_length (r : string * string)
  (records : list (string * string)) :
  0 < String.length (history_contents (r :: records)).
Proof.
  rewrite history_contents_cons, length_append. unfold record_line.
  rewrite !length_append. cbn [String.length]. lia.
Qed.

(** The value of the dedup check on a history file in good order. *)
Lemma dedup_check_value (w : world) (records : list (string * string))
  (source_command : string) :
  history_in_cwd w records ->
  History.is_not_equal_last_history_record w source_command
  = Ok (dedup_verdict records source_command).
Proof.
  intros [[up [i Hwalk]] [Hwf _]].
  unfold History.is_not_equal_last_history_record, open_read.
  rewrite Hwalk. cbn [bind snd stat_of st_size].
  destruct records as [|r0 records0].
  - reflexivity.
  - pose proof (history_contents_length r0 records0) as Hlen.
    destruct (Z.eqb_spec (Z.of_nat (String.length
                (history_contents (r0 :: records0)))) 0%Z) as [E|_]; [lia|].
    cbn [orb dedup_verdict].
    destruct (source_command =? "")%string; [reflexivity|].
    cbn [orb].
    destruct (exists_last (l := r0 :: records0)) as [init [r E]];
      [discriminate|].
    rewrite E in *. rewrite last_last.
    rewrite forallb_app in Hwf. apply andb_true_iff in Hwf.
    destruct Hwf as [_ Hr]. cbn in Hr. rewrite andb_true_r in Hr.
    rewrite (last_record_field init r Hr). reflexivity.
Qed.

End HistoryFacts.

(** ** Appending to the history file *)

Section WriteFacts.

Lemma walk_app (a b : list string) :
  forall (up : list node) (cur : node),
    walk up cur (a ++ b)
    = match walk up cur a with
      | Ok r => walk (fst r) (snd r) b
      | Raise e => Raise e
      end.
Proof.
  induction a as [|c a IH]; intros up cur; [reflexivity|].
  cbn [app walk]. destruct cur as [i data|i size entries]; [reflexivity|].
  destruct (c =? "..")%string.
  - destruct up; apply IH.
  - destruct (lookup c entries); [apply IH | reflexivity].
Qed.

Lemma lookup_append_entry (name : string) (f : node -> node) (fresh x : node)
  (entries : list (string * node)) :
  lookup name entries = Some x ->
  lookup name (append_entry name f fresh entries) = Some (f x).
Proof.
  induction entries as [|[n y] entries IH]; simpl; [discriminate|].
  destruct (n =? name)%string eqn:E; simpl; rewrite E.
  - intros [= ->]. reflexivity.
  - exact IH.
Qed.

Lemma lookup_update_entry (name : string) (f : node -> node) (x : node)
  (entries : list (string * node)) :
  lookup name entries = Some x ->
  lookup name (update_entry name f entries) = Some (f x).
Proof.
  induction entries as [|[n y] entries IH]; simpl; [discriminate|].
  destruct (n =? name)%string eqn:E; simpl; rewrite E.
  - intros [= ->]. reflexivity.
  - exact IH.
Qed.

Lemma append_at_cons (fresh : inode) (c : string) (rest : list string)
  (text : string) (i : inode) (size : Z) (entries : list (string * node)) :
  rest <> [] ->
  append_at fresh (c :: rest) text (Dir i size entries)
  = Dir i size (update_entry c (append_at fresh rest text) entries).
Proof. destruct rest; [congruence | reflexivity]. Qed.

(** Reading back the file after the append, along a path without
    [".."]. *)
Lemma walk_append_at (fresh : inode) (text name : string) (i : inode)
  (data : string) :
  (name =? "..")%string = false ->
  forall comps : list string,
    forallb (fun c => negb (c =? "..")%string) comps = true ->
    forall (up : list node) (cur : node) (up' : list node),
      walk up cur (comps ++ [name]) = Ok (up', File i data) ->
      forall up2 : list node,
      exists up3,
        walk up2 (append_at fresh (comps ++ [name]) text cur) (comps ++ [name])
        = Ok (up3, File i (data ++ text)%string).
Proof.
  intros Hname comps.
  induction comps as [|c rest IH]; intros Hdots up cur up' Hwalk up2.
  - cbn [app walk] in *.
    destruct cur as [i0 d0|i0 size entries]; [discriminate|].
    rewrite Hname in *.
    destruct (lookup name entries) as [child|] eqn:L; [|discriminate].
    injection Hwalk as _ ->.
    cbn [append_at walk]. rewrite ?Hname.
    rewrite (lookup_append_entry _ _ _ _ _ L). cbn [append_data].
    eexists. reflexivity.
  - cbn [forallb] in Hdots. apply andb_true_iff in Hdots.
    destruct Hdots as [Hc Hrest]. apply negb_true_iff in Hc.
    cbn [app walk] in Hwalk.
    destruct cur as [i0 d0|i0 size entries]; [discriminate|].
    rewrite Hc in Hwalk.
    destruct (lookup c entries) as [child|] eqn:L; [|discriminate].
    cbn [app]. rewrite append_at_cons by (destruct rest; discriminate).
    cbn [walk]. rewrite Hc, (lookup_update_entry _ _ _ _ L).
    eapply IH; eassumption.
Qed.

Lemma history_name_not_dotdot :
  (History.HISTORY_FILE_NAME =? "..")%string = false.
Proof. reflexivity. Qed.

(** On a history file in good order [write_history] returns, and the
    file then holds one more record. *)
Lemma write_history_appends (w : world) (records : list (string * string))
  (timestamp source_command : string) :
  history_in_cwd w records ->
  exists w',
    History.write_history timestamp source_command w = Ok w'
    /\ cwd w' = cwd w
    /\ exists up i,
        walk [] (root w') (cwd w' ++ [History.HISTORY_FILE_NAME])
        = Ok (up, File i (history_contents
                            (records ++ [(timestamp, source_command)]))).
Proof.
  intros [[up [i Hwalk]] [Hwf Hdots]].
  unfold History.write_history, open_append.
  pose proof Hwalk as Hsplit. rewrite walk_app in Hsplit.
  destruct (walk [] (root w) (cwd w)) as [[up0 dir]|e]; [|discriminate].
  cbn [fst snd walk] in Hsplit. cbn [bind snd].
  destruct dir as [i0 d0|i0 size entries]; [discriminate|].
  rewrite history_name_not_dotdot in Hsplit.
  destruct (lookup History.HISTORY_FILE_NAME entries) as [child|] eqn:L;
    [|discriminate].
  injection Hsplit as _ ->.
  eexists. split; [reflexivity|]. split; [reflexivity|].
  cbn [root cwd set_root].
  destruct (walk_append_at (creat_inode w)
              (timestamp ++ ":" ++ source_command ++ String History.newline "")
              History.HISTORY_FILE_NAME i (history_contents records)
              history_name_not_dotdot (cwd w) Hdots [] (root w) up Hwalk [])
    as [up3 H3].
  exists up3, i. rewrite H3, history_contents_snoc. reflexivity.
Qed.

(** The history step on a history file in good order: it returns, and
    appends one record exactly when the check says so. *)
Lemma record_history_in_order (w : world) (records : list (string * string))
  (timestamp source_command : string) :
  history_in_cwd w records ->
  exists w',
    record_history timestamp source_command w = (w', Continue)
    /\ cwd w' = cwd w
    /\ (if dedup_verdict records source_command
        then History.write_history timestamp source_command w = Ok w'
             /\ open_read w' History.HISTORY_FILE_NAME
                = Ok (history_contents
                        (records ++ [(timestamp, source_command)]))
        else w' = w).
Proof.
  intros Hh. unfold record_history.
  rewrite (dedup_check_value w records source_command Hh).
  destruct (dedup_verdict records source_command).
  - destruct (write_history_appends w records timestamp source_command Hh)
      as [w' [Hw [Hcwd [up [i Hread]]]]].
    exists w'. rewrite Hw. repeat split; try assumption.
    unfold open_read. rewrite Hread. reflexivity.
  - exists w. repeat split.
Qed.

(** The good order of the history file is kept by the history step. *)
Lemma record_history_keeps_order (w : world)
  (records : list (string * string)) (timestamp source_command : string) :
  history_in_cwd w records ->
  well_formed_record (timestamp, source_command) = true ->
  history_in_cwd (fst (record_history timestamp source_command w))
    (if dedup_verdict records source_command
     then records ++ [(timestamp, source_command)]
     else records).
Proof.
  intros Hh Hrec. unfold record_history.
  rewrite (dedup_check_value w records source_command Hh).
  destruct (dedup_verdict records source_command); [|exact Hh].
  destruct (write_history_appends w records timestamp source_command Hh)
    as [w' [Hw [Hcwd [up [i Hread]]]]].
  rewrite Hw. cbn [fst]. destruct Hh as [_ [Hwf Hdots]].
  split; [exists up, i; exact Hread|]. split.
  - rewrite forallb_app, Hwf. cbn. rewrite Hrec. reflexivity.
  - rewrite Hcwd. exact Hdots.
Qed.

End WriteFacts.

(** ** Unknown commands *)

Lemma sample_history_in_cwd : history_in_cwd Sample.w0 [].
Proof.
  split; [|split; reflexivity].
  eexists. eexists. reflexivity.
Qed.

(** C8.  A line whose first token is not a command name, in any case,
    prints [Command not found: <token>] and nothing else, calls no
    handler, leaves the working directory alone, ends in [Continue], and
    is recorded to the history exactly when the dedup check says so. *)
Theorem unknown_command_only_reports :
  forall (datetime_str : Z -> string) (set_iter : list string -> list string)
         (timestamp line : string) (w : world) (t : string)
         (rest : list string) (records : list (string * string)),
    Parser._tokenize line = t :: rest ->
    PyStr.mem (PyStr.upper t) Command_member_names = false ->
    history_in_cwd w records ->
    exists w',
      main_iteration datetime_str set_iter timestamp line w
      = ([Print ("Command not found: " ++ t)], w', Continue)
      /\ Parser.main_command (snd (Parser.init line)) = None
      /\ run datetime_str set_iter (snd (Parser.init line)) w
         = ([], w, Continue)
      /\ cwd w' = cwd w
      /\ (if dedup_verdict records line
          then History.write_history timestamp line w = Ok w'
               /\ open_read w' History.HISTORY_FILE_NAME
                  = Ok (history_contents (records ++ [(timestamp, line)]))
          else w' = w).
Proof.
  intros datetime_str set_iter timestamp line w t rest records
         Htok Hunknown Hh.
  assert (Hinit : Parser.init line
                  = ([Print ("Command not found: " ++ t)],
                     {| Parser.tokens := t :: rest;
                        Parser.main_command := None;
                        Parser.arguments := rest |})).
  { unfold Parser.init, Parser._parse_main_command,
      Parser._validate_main_command.
    rewrite Htok, Hunknown. reflexivity. }
  destruct (record_history_in_order w records timestamp line Hh)
    as [w' [Hrec [Hcwd Hfile]]].
  exists w'. unfold main_iteration. rewrite Hinit. cbn [snd].
  unfold run at 1. cbn [_main_command Parser.main_command].
  rewrite Hrec. repeat split; assumption.
Qed.

Lemma unknown_command_only_reports_witness :
  exists w',
    main_iteration Datetime.utc_str first_seen "1.5" "foo bar" Sample.w0
    = ([Print "Command not found: foo"], w', Continue)
    /\ Parser.main_command (snd (Parser.init "foo bar")) = None
    /\ run Datetime.utc_str first_seen (snd (Parser.init "foo bar")) Sample.w0
       = ([], Sample.w0, Continue)
    /\ cwd w' = ["home"; "u"]
    /\ History.write_history "1.5" "foo bar" Sample.w0 = Ok w'
    /\ open_read w' History.HISTORY_FILE_NAME
       = Ok (history_contents [("1.5", "foo bar")]).
Proof.
  destruct (unknown_command_only_reports Datetime.utc_str first_seen
              "1.5" "foo bar" Sample.w0 "foo" ["bar"] []
              eq_refl eq_refl sample_history_in_cwd)
    as [w' [H1 [H2 [H3 [H4 [H5 H6]]]]]].
  exists w'. repeat split; assumption.
Defined.

(** ** Dedup on plain command texts, and where it misses *)

Lemma split_on_no_separator (sep : ascii) (s : string) :
  occurs sep s = false -> PyStr.split_on sep s = [s].
Proof.
  induction s as [|x s IH]; simpl; intros H; [reflexivity|].
  apply orb_false_iff in H. destruct H as [Hx Hs].
  rewrite Hx, IH by exact Hs. reflexivity.
Qed.

Lemma rstrip_newline (s : string) :
  PyStr.rstrip (s ++ String History.newline "") = PyStr.rstrip s.
Proof.
  induction s as [|x s IH]; [reflexivity|].
  cbn [append PyStr.rstrip]. rewrite IH. reflexivity.
Qed.

Lemma strip_newline (s : string) :
  PyStr.strip (s ++ String History.newline "") = PyStr.strip s.
Proof.
  unfold PyStr.strip. induction s as [|x s IH]; [reflexivity|].
  cbn [append PyStr.lstrip]. destruct (PyStr.isspace x); [exact IH|].
  apply (rstrip_newline (String x s)).
Qed.

(** A text without colon is read back as itself, stripped. *)
Lemma read_back_no_colon (text : string) :
  occurs ":" text = false -> read_back text = PyStr.strip text.
Proof.
  intros H. unfold read_back.
  rewrite split_on_no_separator.
  - apply strip_newline.
  - rewrite occurs_append, H. reflexivity.
Qed.

(** When the last record's text has no colon and no blank at either end,
    the check asks for an append exactly when the incoming, non-empty
    text differs from it. *)
Lemma dedup_on_plain_text (w : world) (records : list (string * string))
  (timestamp text source_command : string) :
  history_in_cwd w (records ++ [(timestamp, text)]) ->
  occurs ":" text = false ->
  PyStr.strip text = text ->
  source_command <> ""%string ->
  History.is_not_equal_last_history_record w source_command
  = Ok (negb (text =? source_command)%string).
Proof.
  intros Hh Hcolon Hstrip Hne.
  rewrite (dedup_check_value w _ source_command Hh).
  unfold dedup_verdict.
  destruct (records ++ [(timestamp, text)])%list as [|r0 l] eqn:E.
  - destruct records; discriminate E.
  - rewrite <- E, last_last. cbn [snd].
    rewrite (read_back_no_colon text Hcolon), Hstrip.
    apply String.eqb_neq in Hne. rewrite Hne. reflexivity.
Qed.

(** C3 fails on the code for a command text holding a colon, or a blank
    at either end: with [echo a:b] as the last record the check still
    answers "append" for [echo a:b], so entering the line twice stores
    two records; likewise for [pwd] followed by a blank.  A plain [pwd]
    entered twice is stored once. *)
Theorem dedup_misses_colon_and_blank :
  History.is_not_equal_last_history_record
    (Sample.world_with (history_contents [("1.5", "echo a:b")])) "echo a:b"
  = Ok true
  /\ open_read
       (snd (fst (main_loop Datetime.utc_str first_seen
                    [("1.5", "echo a:b"); ("2.5", "echo a:b")] Sample.w0)))
       History.HISTORY_FILE_NAME
     = Ok (history_contents [("1.5", "echo a:b"); ("2.5", "echo a:b")])
  /\ History.is_not_equal_last_history_record
       (Sample.world_with (history_contents [("1.5", "pwd ")])) "pwd "
     = Ok true
  /\ open_read
       (snd (fst (main_loop Datetime.utc_str first_seen
                    [("1.5", "pwd"); ("2.5", "pwd")] Sample.w0)))
       History.HISTORY_FILE_NAME
     = Ok (history_contents [("1.5", "pwd")]).
Proof. vm_compute. repeat split. Qed.

(** ** cd *)




(** ** The session *)

(** Each command name, as its enumeration value spells it, is accepted
    and found as its own handler. *)
Lemma lowercase_command_dispatched (c : Command) :
  Parser._validate_main_command (Command_value c) = Ok tt
  /\ getattr (Command_value c) = Some (Handler c).
Proof. destruct c; split; reflexivity. Qed.

(** C9 fails on the code: [cd f] and [ls f] on a regular file [f] raise
    [NotADirectoryError], which no handler catches, so the loop ends
    there and the next line is never read; and after a successful
    [cd /tmp] the history check looks for [./.history_shell] in the new
    directory and ends the session with [FileNotFoundError]. *)
Theorem uncaught_error_ends_session :
  main_loop Datetime.utc_str first_seen
    [("1.5", "cd f"); ("2.5", "pwd")] Sample.w0
  = ([Prompt "% "], Sample.w0, Uncaught NotADirectoryError)
  /\ main_loop Datetime.utc_str first_seen
       [("1.5", "ls f"); ("2.5", "pwd")] Sample.w0
     = ([Prompt "% "], Sample.w0, Uncaught NotADirectoryError)
  /\ main_loop Datetime.utc_str first_seen
       [("1.5", "cd /tmp"); ("2.5", "pwd")] Sample.w0
     = ([Prompt "% "; Print "/tmp"], set_cwd Sample.w0 ["tmp"],
        Uncaught FileNotFoundError).
Proof. vm_compute. repeat split. Qed.

(** ** The history file across a session *)




Lemma set_cwd_same (w : world) : set_cwd w (cwd w) = w.
Proof. destruct w; reflexivity. Qed.

(** No command touches the tree; only [cd] moves the working
    directory. *)
Lemma run_moves_cwd_only (datetime_str : Z -> string)
  (set_iter : list string -> list string) (self : Parser.t) (w : world) :
  exists c,
    snd (fst (run datetime_str set_iter self w)) = set_cwd w c.
Proof.
  assert (Hsame : exists c, w = set_cwd w c)
    by (exists (cwd w); symmetry; apply set_cwd_same).
  unfold run. destruct (_main_command self) as [name|]; [|exact Hsame].
  destruct (negb (name =? "")%string && hasattr name); [|exact Hsame].
  unfold _execute_command.
  destruct (getattr name) as [[method|]|]; try exact Hsame.
  assert (Hcd : forall l, exists c, snd (fst (cd l w)) = set_cwd w c).
  { intros l. unfold cd, os_chdir.
    destruct (walk [] (root w) _) as [[up0 n]|e]; cbn [bind snd].
    - destruct n; cbn [pwd fst snd]; [exact Hsame | eexists; reflexivity].
    - destruct (if has_nul _ then _ else _); exact Hsame. }
  assert (Hls : forall l, exists c,
               snd (fst (ls datetime_str set_iter l w)) = set_cwd w c).
  { intros l. unfold ls.
    destruct (_parse_ls_arguments w (set_iter l)) as [[ls_args path]|e].
    - destruct (Path_iterdir w path); [|exact Hsame].
      destruct (negb (truthy ls_args) || _); exact Hsame.
    - destruct e; exact Hsame. }
  assert (Hhist : exists c, snd (fst (history w)) = set_cwd w c).
  { unfold history. destruct (History.show w). exact Hsame. }
  destruct (truthy (_arguments self) && _); destruct method;
    cbn [call]; auto.
Qed.

(** The history step never moves the working directory. *)
Lemma record_history_cwd (timestamp source_command : string) (w : world) :
  cwd (fst (record_history timestamp source_command w)) = cwd w.
Proof.
  unfold record_history.
  destruct (History.is_not_equal_last_history_record w source_command)
    as [[|]|]; try reflexivity.
  unfold History.write_history, open_append.
  destruct (walk [] (root w) (cwd w)) as [[up0 n]|]; cbn [bind snd];
    [|reflexivity].
  destruct n; [reflexivity|].
  destruct (lookup _ _) as [[|]|]; reflexivity.
Qed.

(** A turn that ends in [Continue] in the directory it started in keeps
    the history file of that directory in good order. *)
Lemma iteration_keeps_history (datetime_str : Z -> string)
  (set_iter : list string -> list string) (timestamp line : string)
  (w w' : world) (out : list event) (records : list (string * string)) :
  history_in_cwd w records ->
  well_formed_record (timestamp, line) = true ->
  main_iteration datetime_str set_iter timestamp line w = (out, w', Continue) ->
  cwd w' = cwd w ->
  exists records', history_in_cwd w' records'.
Proof.
  intros Hh Hrec Hiter Hcwd. unfold main_iteration in Hiter.
  destruct (Parser.init line) as [out1 parser].
  destruct (run_moves_cwd_only datetime_str set_iter parser w) as [c Hc].
  destruct (run datetime_str set_iter parser w) as [[out2 w1] st].
  cbn [fst snd] in Hc. subst w1.
  destruct st; try discriminate Hiter.
  pose proof (record_history_in_order (set_cwd w c)) as Hstep.
  destruct (record_history timestamp line (set_cwd w c)) as [w2 st2] eqn:E.
  injection Hiter as _ <- ->.
  assert (Hc : c = cwd w).
  { rewrite <- Hcwd.
    pose proof (record_history_cwd timestamp line (set_cwd w c)) as Hsame.
    rewrite E in Hsame. symmetry. exact Hsame. }
  subst c. rewrite set_cwd_same in E.
  pose proof (record_history_keeps_order w records timestamp line Hh Hrec)
    as Hkeep.
  rewrite E in Hkeep. cbn [fst] in Hkeep.
  eexists. exact Hkeep.
Qed.

(** ** The model on the sample tree *)

Example echo_joins_arguments :
  fst (fst (main_iteration Datetime.utc_str first_seen "1.5" "echo a  b c"
              Sample.w0))
  = [Print "a b c"].
Proof. vm_compute. reflexivity. Qed.

Example history_lists_records :
  fst (fst (main_loop Datetime.utc_str first_seen
              [("1.5", "pwd"); ("2.5", "ls"); ("3.5", "history")] Sample.w0))
  = [Prompt "% "; Print "/home/u";
     Prompt "% "; Print "f"; Print "visible";
     Prompt "% "; Print "0  pwd"; Print "1  ls";
     Prompt "% "].
Proof. vm_compute. reflexivity. Qed.

Example exit_leaves_no_record :
  main_iteration Datetime.utc_str first_seen "1.5" "exit" Sample.w0
  = ([], Sample.w0, SystemExit 0).
Proof. vm_compute. reflexivity. Qed.

(* ===================================================================== *)
(** * Further properties of the code *)
(* ===================================================================== *)

(** ** Tokens *)

Lemma spaceless_append (a b : string) :
  spaceless (a ++ b) = spaceless a && spaceless b.
Proof.
  induction a as [|x a IH]; simpl; [reflexivity|].
  rewrite IH. apply andb_assoc.
Qed.

Lemma append_char_not_empty (cur : string) (c : ascii) :
  ((cur ++ String c "") =? "")%string = false.
Proof. destruct cur; reflexivity. Qed.

Lemma split_ws_from_words (s cur : string) :
  spaceless cur = true ->
  Forall (fun t => word t = true) (PyStr.split_ws_from cur s).
Proof.
  revert cur. induction s as [|c s IH]; intros cur Hcur; cbn [PyStr.split_ws_from].
  - destruct (cur =? "")%string eqn:E; [constructor|].
    constructor; [|constructor]. unfold word. rewrite E, Hcur. reflexivity.
  - destruct (PyStr.isspace c) eqn:Hc.
    + destruct (cur =? "")%string eqn:E; [apply IH; reflexivity|].
      constructor; [|apply IH; reflexivity].
      unfold word. rewrite E, Hcur. reflexivity.
    + apply IH. rewrite spaceless_append, Hcur. simpl. rewrite Hc. reflexivity.
Qed.

Lemma tokens_are_words_aux (source_command : string) :
  Forall (fun t => word t = true) (Parser._tokenize source_command).
Proof. apply split_ws_from_words. reflexivity. Qed.

(** [_tokenize] never yields an empty token nor one holding white
    space, whatever the line. *)
Theorem tokens_are_words :
  forall source_command : string,
    Forall (fun t => word t = true) (Parser._tokenize source_command).
Proof. intros source_command. apply split_ws_from_words. reflexivity. Qed.

Lemma split_ws_from_blank (s : string) :
  blank s = true -> PyStr.split_ws_from "" s = [].
Proof.
  induction s as [|c s IH]; simpl; intros H; [reflexivity|].
  apply andb_true_iff in H. destruct H as [Hc Hs].
  rewrite Hc. apply IH. exact Hs.
Qed.

Lemma split_ws_from_nil (s cur : string) :
  PyStr.split_ws_from cur s = [] -> cur = ""%string /\ blank s = true.
Proof.
  revert cur. induction s as [|c s IH]; intros cur; cbn [PyStr.split_ws_from].
  - destruct (String.eqb_spec cur ""); [tauto | discriminate].
  - destruct (PyStr.isspace c) eqn:Hc.
    + destruct (String.eqb_spec cur ""); [|discriminate].
      intros H. apply IH in H. cbn [blank]. rewrite Hc. tauto.
    + intros H. apply IH in H. destruct H as [H _].
      destruct cur; discriminate H.
Qed.

(** A line yields no token exactly when it is blank; the parser then
    reports nothing, keeps no command and no argument, and [run] does
    nothing. *)
Theorem blank_line_is_silent :
  forall (datetime_str : Z -> string) (set_iter : list string -> list string)
         (source_command : string) (w : world),
    (Parser._tokenize source_command = [] <-> blank source_command = true)
    /\ (blank source_command = true ->
        Parser.init source_command
        = ([], {| Parser.tokens := [];
                  Parser.main_command := None;
                  Parser.arguments := [] |})
        /\ run datetime_str set_iter (snd (Parser.init source_command)) w
           = ([], w, Continue)).
Proof.
  intros datetime_str set_iter source_command w.
  assert (Hiff : Parser._tokenize source_command = []
                 <-> blank source_command = true).
  { split.
    - intros H. apply (split_ws_from_nil source_command ""). exact H.
    - apply split_ws_from_blank. }
  split; [exact Hiff|]. intros Hblank.
  apply Hiff in Hblank. unfold Parser.init. rewrite Hblank. split; reflexivity.
Qed.

Lemma blank_line_is_silent_witness :
  Parser.init "   "
  = ([], {| Parser.tokens := [];
            Parser.main_command := None;
            Parser.arguments := [] |})
  /\ run Datetime.utc_str first_seen (snd (Parser.init "   ")) Sample.w0
     = ([], Sample.w0, Continue).
Proof.
  exact (proj2 (blank_line_is_silent Datetime.utc_str first_seen "   "
                  Sample.w0) eq_refl).
Defined.

Lemma split_ws_from_spaceless (t s cur : string) :
  spaceless t = true ->
  PyStr.split_ws_from cur (t ++ s) = PyStr.split_ws_from (cur ++ t) s.
Proof.
  revert cur. induction t as [|c t IH]; intros cur Ht.
  - cbn [append]. rewrite append_nil_r. reflexivity.
  - cbn [spaceless] in Ht. apply andb_true_iff in Ht. destruct Ht as [Hc Ht].
    apply negb_true_iff in Hc.
    cbn [append PyStr.split_ws_from]. rewrite Hc, (IH _ Ht).
    rewrite append_assoc. reflexivity.
Qed.

Lemma split_ws_join (l : list string) :
  Forall (fun t => word t = true) l ->
  PyStr.split_ws (PyStr.join " " l) = l.
Proof.
  unfold PyStr.split_ws. induction l as [|x l IH]; intros H; [reflexivity|].
  inversion H as [|? ? Hx Hl]; subst.
  unfold word in Hx. apply andb_true_iff in Hx. destruct Hx as [Hne Hx].
  apply negb_true_iff in Hne.
  destruct l as [|y l].
  - cbn [PyStr.join]. rewrite <- (append_nil_r x) at 1.
    rewrite (split_ws_from_spaceless x "" "" Hx). cbn. rewrite Hne. reflexivity.
  - change (PyStr.join " " (x :: y :: l))
      with (x ++ " " ++ PyStr.join " " (y :: l))%string.
    rewrite (split_ws_from_spaceless x _ "" Hx).
    cbn [append PyStr.split_ws_from].
    change (PyStr.isspace " ") with true. cbv iota. rewrite Hne.
    rewrite (IH Hl). reflexivity.
Qed.

(** [echo] prints the arguments of the line separated by single spaces,
    and what it prints tokenizes back to those arguments; with no
    argument it prints an empty line. *)
Theorem echo_prints_normalised_arguments :
  forall (datetime_str : Z -> string) (set_iter : list string -> list string)
         (source_command : string) (arguments : list string) (w : world),
    Parser._tokenize source_command = "echo" :: arguments ->
    run datetime_str set_iter (snd (Parser.init source_command)) w
    = ([Print (PyStr.join " " arguments)], w, Continue)
    /\ Parser._tokenize (PyStr.join " " arguments) = arguments.
Proof.
  intros datetime_str set_iter source_command arguments w Htok. split.
  - unfold Parser.init. rewrite Htok. cbn.
    destruct arguments; reflexivity.
  - apply split_ws_join.
    pose proof (tokens_are_words_aux source_command) as H.
    rewrite Htok in H. inversion H. assumption.
Qed.

Lemma echo_prints_normalised_arguments_witness :
  run Datetime.utc_str first_seen (snd (Parser.init "echo  a   b c ")) Sample.w0
  = ([Print "a b c"], Sample.w0, Continue)
  /\ Parser._tokenize "a b c" = ["a"; "b"; "c"].
Proof.
  exact (echo_prints_normalised_arguments Datetime.utc_str first_seen
           "echo  a   b c " ["a"; "b"; "c"] Sample.w0 eq_refl).
Defined.

(** ** Dispatch *)

Lemma handler_of_name_value (name : string) (c : Command) :
  handler_of_name name = Some c -> name = Command_value c.
Proof.
  unfold handler_of_name.
  repeat match goal with
         | |- context [String.eqb name ?s] =>
             destruct (String.eqb_spec name s) as [->|_];
             [intros [= <-]; reflexivity|]
         end.
  discriminate.
Qed.

Lemma parser_init_tokens (source_command : string) :
  Parser.tokens (snd (Parser.init source_command))
  = Parser._tokenize source_command
  /\ Parser.arguments (snd (Parser.init source_command))
     = tl (Parser._tokenize source_command).
Proof.
  unfold Parser.init.
  destruct (Parser._parse_main_command (Parser._tokenize source_command)).
  split; reflexivity.
Qed.

(** Whatever the line, the command the parser keeps is never looked up
    as anything but a command method: if [run] finds an attribute for
    it, that attribute is the handler of the command whose value the
    token spells, and the token is the first token of the line. *)
Theorem kept_command_is_a_handler :
  forall (source_command name : string),
    Parser.main_command (snd (Parser.init source_command)) = Some name ->
    hd_error (Parser._tokenize source_command) = Some name
    /\ PyStr.mem (PyStr.upper name) Command_member_names = true
    /\ (hasattr name = true ->
        exists c, getattr name = Some (Handler c) /\ name = Command_value c).
Proof.
  intros source_command name. unfold Parser.init, Parser._parse_main_command.
  destruct (Parser._tokenize source_command) as [|t rest]; [discriminate|].
  unfold Parser._validate_main_command.
  destruct (PyStr.mem (PyStr.upper t) Command_member_names) eqn:Hv;
    cbn; [|discriminate].
  intros [= ->]. split; [reflexivity|]. split; [exact Hv|].
  unfold hasattr, getattr.
  destruct (handler_of_name name) as [c|] eqn:Hh.
  - intros _. exists c. split; [reflexivity|].
    apply handler_of_name_value. exact Hh.
  - destruct (PyStr.mem name other_members) eqn:E; [|discriminate].
    rewrite (other_members_rejected _ E) in Hv. discriminate Hv.
Qed.

Lemma kept_command_is_a_handler_witness :
  hd_error (Parser._tokenize "ls -l") = Some "ls"
  /\ PyStr.mem (PyStr.upper "ls") Command_member_names = true
  /\ (hasattr "ls" = true ->
      exists c, getattr "ls" = Some (Handler c) /\ "ls" = Command_value c).
Proof.
  exact (kept_command_is_a_handler "ls -l" "ls" eq_refl).
Defined.

(** The dispatch rule on a command spelled as its value: [echo], [cd]
    and [ls] receive the arguments of the line (none when there is
    none); [pwd], [exit], [clear] and [history] are called without
    arguments, so whatever follows them on the line is ignored. *)
Theorem dispatch_by_arity :
  forall (datetime_str : Z -> string) (set_iter : list string -> list string)
         (c : Command) (rest : list string) (w : world),
    run datetime_str set_iter (parsed c rest) w
    = match c with
      | ECHO => ([Print (PyStr.join " " rest)], w, Continue)
      | CD => cd rest w
      | LS => ls datetime_str set_iter rest w
      | PWD | EXIT | CLEAR | HISTORY =>
          run datetime_str set_iter (parsed c []) w
      end.
Proof.
  intros datetime_str set_iter c rest w.
  destruct c; destruct rest; reflexivity.
Qed.

(** [exit] ends the session with status 0 whatever follows it on the
    line: nothing is printed, no history record is written, and no
    later line is read. *)
Theorem exit_ends_session :
  forall (datetime_str : Z -> string) (set_iter : list string -> list string)
         (timestamp source_command : string) (rest : list string)
         (later : list (string * string)) (w : world),
    Parser._tokenize source_command = "exit" :: rest ->
    main_iteration datetime_str set_iter timestamp source_command w
    = ([], w, SystemExit 0)
    /\ main_loop datetime_str set_iter
         ((timestamp, source_command) :: later) w
       = ([Prompt "% "], w, SystemExit 0).
Proof.
  intros datetime_str set_iter timestamp source_command rest later w Htok.
  assert (H : main_iteration datetime_str set_iter timestamp source_command w
              = ([], w, SystemExit 0)).
  { unfold main_iteration, Parser.init. rewrite Htok. cbn.
    destruct rest; reflexivity. }
  split; [exact H|]. cbn [main_loop]. rewrite H. reflexivity.
Qed.

Lemma exit_ends_session_witness :
  main_iteration Datetime.utc_str first_seen "1.5" "exit now" Sample.w0
  = ([], Sample.w0, SystemExit 0)
  /\ main_loop Datetime.utc_str first_seen
       [("1.5", "exit now"); ("2.5", "pwd")] Sample.w0
     = ([Prompt "% "], Sample.w0, SystemExit 0).
Proof.
  exact (exit_ends_session Datetime.utc_str first_seen "1.5" "exit now"
           ["now"] [("2.5", "pwd")] Sample.w0 eq_refl).
Defined.

(** No command writes to the file tree or changes the home directory:
    after [run] the tree is the one before, and only the working
    directory may differ. *)
Theorem run_keeps_tree :
  forall (datetime_str : Z -> string) (set_iter : list string -> list string)
         (self : Parser.t) (w : world),
    root (snd (fst (run datetime_str set_iter self w))) = root w
    /\ home (snd (fst (run datetime_str set_iter self w))) = home w
    /\ creat_inode (snd (fst (run datetime_str set_iter self w)))
       = creat_inode w.
Proof.
  intros datetime_str set_iter self w.
  destruct (run_moves_cwd_only datetime_str set_iter self w) as [c ->].
  repeat split.
Qed.

(** ** ls arguments *)

Lemma parse_ls_loop_app (w : world) (a b : list string) :
  forall (ls_args : list string) (path : string),
    parse_ls_loop w (a ++ b) ls_args path
    = match parse_ls_loop w a ls_args path with
      | Ok r => parse_ls_loop w b (fst r) (snd r)
      | Raise e => Raise e
      end.
Proof.
  induction a as [|x a IH]; intros ls_args path; [reflexivity|].
  cbn [app parse_ls_loop].
  destruct (PyStr.startswith "-" x); [apply IH|].
  destruct (_validate_ls_path_argument w x); cbn [bind]; [apply IH|reflexivity].
Qed.

Lemma parse_ls_loop_flags_only (w : world) (arguments : list string) :
  forallb (PyStr.startswith "-") arguments = true ->
  forall (ls_args : list string) (path : string),
  exists ls_args',
    parse_ls_loop w arguments ls_args path = Ok (ls_args', path).
Proof.
  induction arguments as [|x l IH]; intros H ls_args path.
  - exists ls_args. reflexivity.
  - cbn [forallb] in H. apply andb_true_iff in H. destruct H as [Hx Hl].
    cbn [parse_ls_loop]. rewrite Hx. apply IH. exact Hl.
Qed.

(** Flag tokens are not merged: when every argument starts with a dash,
    the flags are the characters after the dash of the token visited
    last, and the target is the working directory. *)
Theorem ls_last_flag_token_wins :
  forall (w : world) (before : list string) (last_token : string),
    forallb (PyStr.startswith "-") before = true ->
    PyStr.startswith "-" last_token = true ->
    _parse_ls_arguments w (before ++ [last_token])
    = Ok (tl (PyStr.chars last_token), path_str (cwd w)).
Proof.
  intros w before last_token Hbefore Hlast.
  unfold _parse_ls_arguments. rewrite parse_ls_loop_app.
  destruct (parse_ls_loop_flags_only w before Hbefore [] (path_str (cwd w)))
    as [flags ->].
  cbn [fst snd parse_ls_loop]. rewrite Hlast. reflexivity.
Qed.

Lemma ls_last_flag_token_wins_witness :
  _parse_ls_arguments Sample.w0 (["-l"] ++ ["-a"])
  = Ok (tl (PyStr.chars "-a"), path_str (cwd Sample.w0))
  /\ _parse_ls_arguments Sample.w0 (["-a"] ++ ["-l"])
     = Ok (tl (PyStr.chars "-l"), path_str (cwd Sample.w0)).
Proof.
  split.
  - exact (ls_last_flag_token_wins Sample.w0 ["-l"] "-a" eq_refl eq_refl).
  - exact (ls_last_flag_token_wins Sample.w0 ["-a"] "-l" eq_refl eq_refl).
Defined.

Lemma parse_ls_loop_two_tokens (w : world) (flag path_token : string) :
  PyStr.startswith "-" flag = true ->
  PyStr.startswith "-" path_token = false ->
  Path_exists w path_token = Ok true ->
  forall (order ls_args : list string) (path : string),
    (forall q, In q order -> q = flag \/ q = path_token) ->
    parse_ls_loop w order ls_args path
    = Ok (if PyStr.mem flag order then tl (PyStr.chars flag) else ls_args,
          if PyStr.mem path_token order then path_token else path).
Proof.
  intros Hflag Hpath Hexists order.
  assert (Hdiff : (flag =? path_token)%string = false).
  { apply String.eqb_neq. intros ->. congruence. }
  induction order as [|x l IH]; intros ls_args path Hall; [reflexivity|].
  assert (Hl : forall q, In q l -> q = flag \/ q = path_token)
    by (intros q Hq; apply Hall; right; exact Hq).
  cbn [parse_ls_loop PyStr.mem existsb].
  destruct (Hall x (or_introl eq_refl)) as [->| ->].
  - rewrite Hflag, String.eqb_refl, (IH _ _ Hl). cbn [orb].
    rewrite String.eqb_sym, Hdiff. cbn [orb]. fold (PyStr.mem flag l).
    fold (PyStr.mem path_token l).
    destruct (PyStr.mem flag l); reflexivity.
  - rewrite Hpath. unfold _validate_ls_path_argument. rewrite Hexists.
    cbn [bind]. rewrite (IH _ _ Hl), String.eqb_refl, Hdiff. cbn [orb].
    fold (PyStr.mem flag l). fold (PyStr.mem path_token l).
    destruct (PyStr.mem path_token l); reflexivity.
Qed.

(** With one flag token and one token naming an existing path, repeated
    or not, the parse does not depend on the order in which the argument
    set is visited: the flags are those of the flag token and the target
    is the path token. *)
Theorem ls_one_flag_one_path_any_order :
  forall (set_iter : list string -> list string) (w : world)
         (parameters : list string) (flag path_token : string),
    enumerates set_iter ->
    PyStr.startswith "-" flag = true ->
    PyStr.startswith "-" path_token = false ->
    Path_exists w path_token = Ok true ->
    In flag parameters ->
    In path_token parameters ->
    (forall q, In q parameters -> q = flag \/ q = path_token) ->
    _parse_ls_arguments w (set_iter parameters)
    = Ok (tl (PyStr.chars flag), path_token).
Proof.
  intros set_iter w parameters flag path_token Henum Hflag Hpath Hexists
         Hinf Hinp Hall.
  unfold _parse_ls_arguments.
  rewrite (parse_ls_loop_two_tokens w flag path_token Hflag Hpath Hexists).
  - assert (Hf : PyStr.mem flag (set_iter parameters) = true)
      by (apply mem_In, Henum; exact Hinf).
    assert (Hp : PyStr.mem path_token (set_iter parameters) = true)
      by (apply mem_In, Henum; exact Hinp).
    rewrite Hf, Hp. reflexivity.
  - intros q Hq. apply Hall, Henum. exact Hq.
Qed.

Lemma ls_one_flag_one_path_any_order_witness :
  _parse_ls_arguments Sample.w0 (first_seen ["/tmp"; "-la"; "/tmp"])
  = Ok (tl (PyStr.chars "-la"), "/tmp").
Proof.
  apply (ls_one_flag_one_path_any_order first_seen Sample.w0
           ["/tmp"; "-la"; "/tmp"] "-la" "/tmp").
  - exact first_seen_enumerates.
  - reflexivity.
  - reflexivity.
  - reflexivity.
  - simpl. tauto.
  - simpl. tauto.
  - intros q [<-|[<-|[<-|[]]]]; tauto.
Defined.

(** ** The permission string and the mode *)

Lemma symbol_at_inj (m1 m2 k : Z) (symbol : ascii) :
  symbol <> "-"%char ->
  symbol_at m1 k symbol = symbol_at m2 k symbol ->
  Z.testbit m1 k = Z.testbit m2 k.
Proof.
  unfold symbol_at. intros Hs.
  destruct (Z.testbit m1 k), (Z.testbit m2 k); intros H;
    solve [reflexivity | exfalso; apply Hs; congruence].
Qed.

Lemma permission_bits_testbit (m n : Z) :
  0 <= n ->
  Z.testbit (permission_bits m) n = Z.testbit m n && (n <? 9).
Proof.
  intros Hn. unfold permission_bits. change 511 with (Z.ones 9).
  rewrite Z.land_spec, Z.testbit_ones_nonneg by lia. reflexivity.
Qed.

(** The permission string determines, and is determined by, the nine
    permission bits together with the directory test: two modes are
    rendered alike exactly when they agree on both. *)
Theorem permissions_string_round_trip :
  forall m1 m2 : Z,
    _format_path_permissions_levels m1 = _format_path_permissions_levels m2
    <-> (permission_bits m1 = permission_bits m2
         /\ stat.S_ISDIR m1 = stat.S_ISDIR m2).
Proof.
  intros m1 m2. rewrite !format_path_permissions_levels_chars. split.
  - intros H.
    injection H as Hd H8 H7 H6 H5 H4 H3 H2 H1 H0.
    apply symbol_at_inj in H8, H7, H6, H5, H4, H3, H2, H1, H0;
      try discriminate.
    split.
    + apply Z.bits_inj'. intros n Hn.
      rewrite !permission_bits_testbit by exact Hn.
      destruct (Z.ltb_spec n 9) as [Hlt|Hge]; [|now rewrite !andb_false_r].
      rewrite !andb_true_r.
      assert (Hcases : n = 0 \/ n = 1 \/ n = 2 \/ n = 3 \/ n = 4 \/ n = 5
                       \/ n = 6 \/ n = 7 \/ n = 8) by lia.
      repeat (destruct Hcases as [->|Hcases]; [assumption|]).
      subst n. assumption.
    + destruct (stat.S_ISDIR m1), (stat.S_ISDIR m2);
        solve [reflexivity | discriminate Hd].
  - intros [Hbits Hdir].
    assert (Hbit : forall k, 0 <= k < 9 -> Z.testbit m1 k = Z.testbit m2 k).
    { intros k Hk.
      pose proof (permission_bits_testbit m1 k (proj1 Hk)) as E1.
      pose proof (permission_bits_testbit m2 k (proj1 Hk)) as E2.
      destruct (Z.ltb_spec k 9) as [_|Hge]; [|lia].
      rewrite andb_true_r in E1, E2. rewrite <- E1, <- E2, Hbits.
      reflexivity. }
    unfold symbol_at. rewrite Hdir.
    rewrite (Hbit 8), (Hbit 7), (Hbit 6), (Hbit 5), (Hbit 4), (Hbit 3),
      (Hbit 2), (Hbit 1), (Hbit 0) by lia.
    reflexivity.
Qed.

(** ** cd and the working directory *)

Lemma forallb_removelast {A} (f : A -> bool) (l : list A) :
  forallb f l = true -> forallb f (removelast l) = true.
Proof.
  induction l as [|x l IH]; [reflexivity|].
  cbn [forallb]. intros H. apply andb_true_iff in H. destruct H as [Hx Hl].
  destruct l as [|y l]; [reflexivity|].
  change (removelast (x :: y :: l)) with (x :: removelast (y :: l)).
  cbn [forallb]. rewrite Hx. apply IH. exact Hl.
Qed.

Lemma normpath_abs_plain (comps new_comps : list string) :
  forallb plain_component new_comps = true ->
  forallb (fun c => negb ((c =? "") || (c =? "."))%string) comps = true ->
  forallb plain_component (normpath_abs new_comps comps) = true.
Proof.
  revert new_comps.
  induction comps as [|c comps IH]; intros new_comps Hnew Hcomps;
    [exact Hnew|].
  cbn [forallb] in Hcomps. apply andb_true_iff in Hcomps.
  destruct Hcomps as [Hc Hcomps]. cbn [normpath_abs].
  destruct (c =? "..")%string eqn:E.
  - apply IH; [apply forallb_removelast; exact Hnew | exact Hcomps].
  - apply IH; [|exact Hcomps].
    rewrite forallb_app, Hnew. cbn. unfold plain_component.
    rewrite E, orb_false_r. rewrite Hc. reflexivity.
Qed.

Lemma parts_no_dot (path : string) :
  forallb (fun c => negb ((c =? "") || (c =? "."))%string) (parts path) = true.
Proof.
  unfold parts. apply forallb_forall. intros c Hc.
  apply filter_In in Hc. apply Hc.
Qed.

Lemma plain_no_dot (comps : list string) :
  forallb plain_component comps = true ->
  forallb (fun c => negb ((c =? "") || (c =? "."))%string) comps = true.
Proof.
  intros H. apply forallb_forall. intros c Hc.
  apply (proj1 (forallb_forall _ _) H) in Hc. unfold plain_component in Hc.
  apply negb_true_iff in Hc. apply orb_false_iff in Hc.
  apply negb_true_iff. apply Hc.
Qed.

Lemma abspath_plain (w : world) (path : string) :
  forallb plain_component (cwd w) = true ->
  forallb plain_component (abspath w path) = true.
Proof.
  intros Hcwd. unfold abspath. apply normpath_abs_plain; [reflexivity|].
  destruct (is_absolute path); [apply parts_no_dot|].
  rewrite forallb_app, (plain_no_dot _ Hcwd), parts_no_dot. reflexivity.
Qed.

(** [cd] keeps the working directory valid: whatever the arguments and
    whether it succeeds, fails with its message or raises, the working
    directory afterwards is a normalised path (no empty, [.] or [..]
    component) that resolves to a directory of the unchanged tree. *)
Theorem cd_keeps_cwd_valid :
  forall (argument_path : list string) (w : world),
    cwd_valid w ->
    cwd_valid (snd (fst (cd argument_path w)))
    /\ root (snd (fst (cd argument_path w))) = root w.
Proof.
  intros argument_path w Hvalid. unfold cd, os_chdir.
  set (path := if truthy argument_path
               then String.concat "" argument_path else home w).
  destruct (walk [] (root w) (abspath w path)) as [[up n]|e] eqn:Hwalk;
    cbn [bind snd].
  - destruct n as [i data|i size entries]; cbn [pwd fst snd].
    + split; [exact Hvalid | reflexivity].
    + split; [|reflexivity]. split.
      * cbn [cwd set_cwd]. apply abspath_plain, Hvalid.
      * exists up, i, size, entries. exact Hwalk.
  - destruct (if has_nul _ then _ else _); cbn [fst snd];
      (split; [exact Hvalid | reflexivity]).
Qed.

Lemma sample_cwd_valid : cwd_valid Sample.w0.
Proof.
  split; [reflexivity|]. do 4 eexists. reflexivity.
Qed.

Lemma cd_keeps_cwd_valid_witness :
  cwd_valid (snd (fst (cd ["../../tmp/./"] Sample.w0)))
  /\ root (snd (fst (cd ["../../tmp/./"] Sample.w0))) = root Sample.w0.
Proof.
  exact (cd_keeps_cwd_valid ["../../tmp/./"] Sample.w0 sample_cwd_valid).
Defined.

(** ** Reading the history file *)

(** The backward scan of [is_not_equal_last_history_record] stops at the
    first byte of the last line of a file whose lines all end with a
    line break, and [readline] then returns that line whole; an empty
    last line and a one-byte file are covered. *)
Theorem seek_finds_last_line :
  forall pre line : string,
    (pre = ""%string
     \/ exists p, pre = (p ++ String History.newline "")%string) ->
    occurs History.newline line = false ->
    History.last_line_offset (pre ++ line ++ String History.newline "")
    = String.length pre
    /\ History.readline
         (History.drop
            (History.last_line_offset
               (pre ++ line ++ String History.newline ""))
            (pre ++ line ++ String History.newline ""))
       = (line ++ String History.newline "")%string.
Proof.
  intros pre line Hpre Hline.
  assert (Hoff : History.last_line_offset
                   (pre ++ line ++ String History.newline "")
                 = String.length pre).
  { destruct line as [|x line].
    - cbn [append]. destruct Hpre as [->|[p ->]]; [reflexivity|].
      unfold History.last_line_offset. rewrite !length_append.
      cbn [String.length].
      destruct (Nat.ltb_spec (String.length p + 1 + 1) 2); [lia|].
      replace (String.length p + 1 + 1 - 2)%nat
        with (String.length p + 0)%nat by lia.
      rewrite scan_back_unfold, !append_assoc, get_append_right.
      cbn. f_equal. lia.
    - apply last_line_offset_line; [exact Hpre | exact Hline | discriminate]. }
  split; [exact Hoff|].
  rewrite Hoff, drop_append. apply readline_whole_line. exact Hline.
Qed.

Lemma seek_finds_last_line_witness :
  History.last_line_offset
    (history_contents [("1.5", "pwd")] ++ "2.5:ls -l"
     ++ String History.newline "")
  = String.length (history_contents [("1.5", "pwd")])
  /\ History.readline
       (History.drop
          (History.last_line_offset
             (history_contents [("1.5", "pwd")] ++ "2.5:ls -l"
              ++ String History.newline ""))
          (history_contents [("1.5", "pwd")] ++ "2.5:ls -l"
           ++ String History.newline ""))
     = ("2.5:ls -l" ++ String History.newline "")%string.
Proof.
  apply (seek_finds_last_line (history_contents [("1.5", "pwd")]) "2.5:ls -l").
  - right. exists "1.5:pwd"%string. reflexivity.
  - reflexivity.
Defined.

(** The value of the dedup check on a history file in good order: with
    no record it asks for an append; otherwise it asks for one exactly
    when the incoming text is empty or differs from what is read back
    from the last record, its text up to the first colon, stripped. *)
Theorem dedup_check_characterised :
  forall (w : world) (records : list (string * string))
         (timestamp text source_command : string),
    (history_in_cwd w [] ->
     History.is_not_equal_last_history_record w source_command = Ok true)
    /\ (history_in_cwd w (records ++ [(timestamp, text)]) ->
        History.is_not_equal_last_history_record w source_command
        = Ok ((source_command =? "")%string
              || negb (PyStr.strip
                         (hd ""%string
                            (PyStr.split_on ":"
                               (text ++ String History.newline "")))
                       =? source_command)%string)).
Proof.
  intros w records timestamp text source_command. split; intros Hh.
  - rewrite (dedup_check_value w [] source_command Hh). reflexivity.
  - rewrite (dedup_check_value w _ source_command Hh). unfold dedup_verdict.
    destruct (records ++ [(timestamp, text)])%list as [|r0 l] eqn:E.
    + destruct records; discriminate E.
    + rewrite <- E, last_last. reflexivity.
Qed.

Lemma dedup_check_characterised_witness :
  History.is_not_equal_last_history_record Sample.w0 "pwd" = Ok true
  /\ History.is_not_equal_last_history_record
       (Sample.world_with (history_contents [("1.5", "ls -l")])) "ls -l"
     = Ok false.
Proof.
  split.
  - exact (proj1 (dedup_check_characterised Sample.w0 [] "" "" "pwd")
             sample_history_in_cwd).
  - refine (proj2 (dedup_check_characterised
                     (Sample.world_with (history_contents [("1.5", "ls -l")]))
                     [] "1.5" "ls -l" "ls -l") _).
    split; [|split; reflexivity].
    eexists. eexists. reflexivity.
Defined.

(** Entering the same plain command text (non-empty, no colon, no blank
    at either end) twice in a row stores it once: after the history
    step for it, a second history step for the same text changes
    nothing. *)
Theorem immediate_repeat_stored_once :
  forall (w : world) (records : list (string * string))
         (timestamp1 timestamp2 source_command : string),
    history_in_cwd w records ->
    well_formed_record (timestamp1, source_command) = true ->
    source_command <> ""%string ->
    occurs ":" source_command = false ->
    PyStr.strip source_command = source_command ->
    record_history timestamp2 source_command
      (fst (record_history timestamp1 source_command w))
    = (fst (record_history timestamp1 source_command w), Continue).
Proof.
  intros w records timestamp1 timestamp2 source_command
         Hh Hrec Hne Hcolon Hstrip.
  pose proof (record_history_keeps_order w records timestamp1 source_command
                Hh Hrec) as Hkeep.
  set (w1 := fst (record_history timestamp1 source_command w)) in *.
  unfold record_history at 1.
  rewrite (dedup_check_value w1 _ source_command Hkeep).
  destruct (dedup_verdict records source_command) eqn:Hv.
  - unfold dedup_verdict.
    destruct (records ++ [(timestamp1, source_command)])%list as [|r0 l] eqn:E.
    + destruct records; discriminate E.
    + rewrite <- E, last_last. cbn [snd].
      rewrite (read_back_no_colon _ Hcolon), Hstrip, String.eqb_refl.
      apply String.eqb_neq in Hne. rewrite Hne. reflexivity.
  - rewrite Hv. reflexivity.
Qed.

Lemma immediate_repeat_stored_once_witness :
  record_history "2.5" "ls -l" (fst (record_history "1.5" "ls -l" Sample.w0))
  = (fst (record_history "1.5" "ls -l" Sample.w0), Continue).
Proof.
  apply (immediate_repeat_stored_once Sample.w0 [] "1.5" "2.5" "ls -l").
  - exact sample_history_in_cwd.
  - reflexivity.
  - discriminate.
  - reflexivity.
  - reflexivity.
Defined.

(** ** Blank lines in the history *)

Lemma lstrip_head (s : string) (c : ascii) (r : string) :
  PyStr.lstrip s = String c r -> PyStr.isspace c = false.
Proof.
  induction s as [|x s IH]; cbn [PyStr.lstrip]; [discriminate|].
  destruct (PyStr.isspace x) eqn:Hx; [exact IH|].
  intros [= <- _]. exact Hx.
Qed.

Lemma rstrip_head (s : string) (c : ascii) (r : string) :
  PyStr.rstrip s = String c r -> exists r', s = String c r'.
Proof.
  destruct s as [|x s]; cbn [PyStr.rstrip]; [discriminate|].
  destruct (PyStr.rstrip s).
  - destruct (PyStr.isspace x); [discriminate|].
    intros [= <- _]. eexists. reflexivity.
  - intros [= <- _]. eexists. reflexivity.
Qed.

(** A stripped string never starts with white space. *)
Lemma strip_head (s : string) (c : ascii) (r : string) :
  PyStr.strip s = String c r -> PyStr.isspace c = false.
Proof.
  unfold PyStr.strip. intros H.
  destruct (rstrip_head _ _ _ H) as [r' Hr'].
  eapply lstrip_head. exact Hr'.
Qed.

Lemma blank_never_read_back (text source_command : string) :
  blank source_command = true ->
  ((source_command =? "")
   || negb (read_back text =? source_command))%string = true.
Proof.
  intros Hblank. destruct source_command as [|c s]; [reflexivity|].
  cbn [String.eqb orb]. apply negb_true_iff. apply String.eqb_neq.
  intros E. unfold read_back in E. apply strip_head in E.
  cbn [blank] in Hblank. rewrite E in Hblank. discriminate Hblank.
Qed.

(** A blank line, the empty line included, prints nothing and is
    appended to the history every time it is entered: the dedup check
    never holds it back. *)
Theorem blank_line_always_recorded :
  forall (datetime_str : Z -> string) (set_iter : list string -> list string)
         (timestamp source_command : string) (w : world)
         (records : list (string * string)),
    blank source_command = true ->
    history_in_cwd w records ->
    exists w',
      main_iteration datetime_str set_iter timestamp source_command w
      = ([], w', Continue)
      /\ open_read w' History.HISTORY_FILE_NAME
         = Ok (history_contents (records ++ [(timestamp, source_command)])).
Proof.
  intros datetime_str set_iter timestamp source_command w records Hblank Hh.
  assert (Hv : dedup_verdict records source_command = true).
  { unfold dedup_verdict. destruct records; [reflexivity|].
    apply blank_never_read_back. exact Hblank. }
  destruct (record_history_in_order w records timestamp source_command Hh)
    as [w' [Hrec [_ Hfile]]].
  rewrite Hv in Hfile. destruct Hfile as [_ Hread].
  exists w'. split; [|exact Hread].
  unfold main_iteration, Parser.init.
  rewrite (split_ws_from_blank source_command Hblank : 
             Parser._tokenize source_command = []).
  cbn. rewrite Hrec. reflexivity.
Qed.

Lemma blank_line_always_recorded_witness :
  exists w',
    main_iteration Datetime.utc_str first_seen "2.5" ""
      (Sample.world_with (history_contents [("1.5", "")]))
    = ([], w', Continue)
    /\ open_read w' History.HISTORY_FILE_NAME
       = Ok (history_contents ([("1.5", "")] ++ [("2.5", "")])).
Proof.
  apply (blank_line_always_recorded Datetime.utc_str first_seen "2.5" ""
           (Sample.world_with (history_contents [("1.5", "")]))
           [("1.5", "")]).
  - reflexivity.
  - split; [|split; reflexivity]. eexists. eexists. reflexivity.
Defined.

(** ** Listing the history *)

Lemma readlines_from_line (line rest cur : string) :
  occurs History.newline line = false ->
  History.readlines_from cur (line ++ String History.newline rest)
  = (cur ++ line ++ String History.newline "")%string
    :: History.readlines_from "" rest.
Proof.
  revert cur. induction line as [|x line IH]; intros cur Hline.
  - cbn. reflexivity.
  - cbn [occurs] in Hline. apply orb_false_iff in Hline.
    destruct Hline as [Hx Hline].
    cbn [append History.readlines_from]. rewrite Hx, (IH _ Hline).
    rewrite append_assoc. reflexivity.
Qed.

Lemma well_formed_record_fields (r : string * string) :
  well_formed_record r = true ->
  occurs History.newline (fst r) = false
  /\ occurs ":" (fst r) = false
  /\ occurs History.newline (snd r) = false.
Proof.
  unfold well_formed_record. intros H.
  apply andb_true_iff in H. destruct H as [H H3].
  apply andb_true_iff in H. destruct H as [H1 H2].
  apply negb_true_iff in H1, H2, H3. tauto.
Qed.

Lemma universal_newlines_plain (s : string) :
  occurs "013" s = false -> History.universal_newlines s = s.
Proof.
  induction s as [|c s IH]; cbn [occurs History.universal_newlines];
    intros H; [reflexivity|].
  apply orb_false_iff in H. destruct H as [Hc Hs].
  rewrite Hc, (IH Hs). reflexivity.
Qed.

Lemma history_contents_no_carriage_return
  (records : list (string * string)) :
  forallb no_carriage_return records = true ->
  occurs "013" (history_contents records) = false.
Proof.
  induction records as [|r records IH]; intros H; [reflexivity|].
  cbn [forallb] in H. apply andb_true_iff in H. destruct H as [Hr Hrest].
  unfold no_carriage_return in Hr. apply andb_true_iff in Hr.
  destruct Hr as [H1 H2]. apply negb_true_iff in H1, H2.
  rewrite history_contents_cons, occurs_append, (IH Hrest), orb_false_r.
  unfold record_line. rewrite occurs_append, H1. cbn [append occurs orb].
  rewrite occurs_append, H2. reflexivity.
Qed.

Lemma readlines_history_contents (records : list (string * string)) :
  forallb well_formed_record records = true ->
  forallb no_carriage_return records = true ->
  History.readlines (history_contents records) = map record_line records.
Proof.
  unfold History.readlines. intros H Hcr.
  rewrite (universal_newlines_plain _
             (history_contents_no_carriage_return records Hcr)).
  clear Hcr. revert H.
  induction records as [|r records IH]; intros H; [reflexivity|].
  cbn [forallb] in H. apply andb_true_iff in H. destruct H as [Hr Hrest].
  destruct (well_formed_record_fields r Hr) as [H1 [_ H3]].
  rewrite history_contents_cons. unfold record_line at 1.
  replace (fst r ++ ":" ++ snd r ++ String History.newline "")%string
    with ((fst r ++ ":" ++ snd r) ++ String History.newline "")%string
    by (now rewrite !append_assoc).
  rewrite append_assoc. cbn [append].
  rewrite readlines_from_line.
  - cbn [map append]. rewrite (IH Hrest). unfold record_line.
    now rewrite !append_assoc.
  - rewrite occurs_append, H1. simpl. exact H3.
Qed.

Lemma command_field_record_line (r : string * string) :
  well_formed_record r = true ->
  History.command_field (record_line r) = Ok (read_back (snd r)).
Proof.
  intros Hr. destruct (well_formed_record_fields r Hr) as [_ [H2 _]].
  unfold History.command_field, record_line. cbn [append].
  rewrite (split_on_first_field ":" (fst r) _ H2).
  rewrite (split_on_nonempty ":" (snd r ++ String History.newline "")).
  reflexivity.
Qed.

Lemma show_lines_records (records : list (string * string)) :
  forallb well_formed_record records = true ->
  forall index : nat,
    History.show_lines (enumerate_from index (map record_line records))
    = (map (fun ir => history_line (fst ir) (snd ir))
           (enumerate_from index records), Continue).
Proof.
  induction records as [|r records IH]; intros H index; [reflexivity|].
  cbn [forallb] in H. apply andb_true_iff in H. destruct H as [Hr Hrest].
  cbn [map enumerate_from History.show_lines].
  rewrite (command_field_record_line r Hr), (IH Hrest). reflexivity.
Qed.

(** On a history file whose records hold no carriage return, [history]
    prints one line per stored record, in file order, numbered from 0:
    the index, two spaces, and the record's text as it is read back (up
    to its first colon, stripped); it changes nothing. *)
Theorem history_lists_every_record :
  forall (w : world) (records : list (string * string)),
    history_in_cwd w records ->
    forallb no_carriage_return records = true ->
    history w
    = (map (fun ir => history_line (fst ir) (snd ir))
           (enumerate_from 0 records), w, Continue).
Proof.
  intros w records [[up [i Hwalk]] [Hwf _]] Hcr.
  unfold history, History.show, open_read. rewrite Hwalk. cbn [bind snd].
  rewrite (readlines_history_contents records Hwf Hcr).
  rewrite (show_lines_records records Hwf). reflexivity.
Qed.

Lemma history_lists_every_record_witness :
  history (Sample.world_with
             (history_contents [("1.5", "pwd"); ("2.5", "echo a:b")]))
  = ([Print "0  pwd"; Print "1  echo a"],
     Sample.world_with
       (history_contents [("1.5", "pwd"); ("2.5", "echo a:b")]),
     Continue).
Proof.
  apply (history_lists_every_record
           (Sample.world_with
              (history_contents [("1.5", "pwd"); ("2.5", "echo a:b")]))
           [("1.5", "pwd"); ("2.5", "echo a:b")]).
  - split; [|split; reflexivity]. eexists. eexists. reflexivity.
  - reflexivity.
Defined.

(** ** Preparing and keeping the history file *)



(** A turn that ends in [Continue] in the directory it started in
    appends at most one record, the line just entered with its clock
    reading and only when the dedup check asks for it, and leaves the
    earlier records as they were. *)
Theorem turn_appends_at_most_one_record :
  forall (datetime_str : Z -> string) (set_iter : list string -> list string)
         (timestamp source_command : string) (w w' : world)
         (out : list event) (records : list (string * string)),
    history_in_cwd w records ->
    well_formed_record (timestamp, source_command) = true ->
    main_iteration datetime_str set_iter timestamp source_command w
    = (out, w', Continue) ->
    cwd w' = cwd w ->
    history_in_cwd w'
      (if dedup_verdict records source_command
       then records ++ [(timestamp, source_command)]
       else records).
Proof.
  intros datetime_str set_iter timestamp source_command w w' out records
         Hh Hrec Hiter Hcwd.
  unfold main_iteration in Hiter.
  destruct (Parser.init source_command) as [out1 parser].
  destruct (run_moves_cwd_only datetime_str set_iter parser w) as [c Hc].
  destruct (run datetime_str set_iter parser w) as [[out2 w1] st].
  cbn [fst snd] in Hc. subst w1.
  destruct st; try discriminate Hiter.
  destruct (record_history timestamp source_command (set_cwd w c))
    as [w2 st2] eqn:E.
  injection Hiter as _ <- ->.
  assert (Hc : c = cwd w).
  { rewrite <- Hcwd.
    pose proof (record_history_cwd timestamp source_command (set_cwd w c))
      as Hsame.
    rewrite E in Hsame. symmetry. exact Hsame. }
  subst c. rewrite set_cwd_same in E.
  pose proof (record_history_keeps_order w records timestamp source_command
                Hh Hrec) as Hkeep.
  rewrite E in Hkeep. exact Hkeep.
Qed.

Lemma turn_appends_at_most_one_record_witness :
  history_in_cwd
    (snd (fst (main_iteration Datetime.utc_str first_seen "1.5" "ls -l"
                 Sample.w0)))
    (if dedup_verdict [] "ls -l" then [] ++ [("1.5", "ls -l")] else []).
Proof.
  apply (turn_appends_at_most_one_record Datetime.utc_str first_seen
           "1.5" "ls -l" Sample.w0 _
           (fst (fst (main_iteration Datetime.utc_str first_seen "1.5" "ls -l"
                        Sample.w0))) []).
  - exact sample_history_in_cwd.
  - reflexivity.
  - vm_compute. reflexivity.
  - reflexivity.
Defined.

(** ** Sessions *)



Lemma unknown_line_turn (datetime_str : Z -> string)
  (set_iter : list string -> list string) (timestamp source_command : string)
  (w : world) :
  unknown_line source_command = true ->
  main_iteration datetime_str set_iter timestamp source_command w
  = ([Print ("Command not found: "
             ++ hd ""%string (Parser._tokenize source_command))],
     fst (record_history timestamp source_command w),
     snd (record_history timestamp source_command w)).
Proof.
  unfold unknown_line, main_iteration, Parser.init,
    Parser._parse_main_command, Parser._validate_main_command.
  destruct (Parser._tokenize source_command) as [|t rest]; [discriminate|].
  intros H. rewrite H. cbn.
  destruct (record_history timestamp source_command w). reflexivity.
Qed.

(** A session made of lines whose first token is no command never ends
    before the input does: from a history file in good order every line
    gets its prompt and its message, the working directory stays, the
    history file stays in good order, and the session ends only when
    [input] finds no more line. *)
Theorem unknown_lines_never_end_session :
  forall (datetime_str : Z -> string) (set_iter : list string -> list string)
         (inputs : list (string * string)) (w : world)
         (records : list (string * string)),
    history_in_cwd w records ->
    forallb (fun input => well_formed_record input
                          && unknown_line (snd input)) inputs = true ->
    exists w' records',
      main_loop datetime_str set_iter inputs w
      = ((flat_map unknown_line_output inputs ++ [Prompt "% "])%list, w',
         Uncaught EOFError)
      /\ cwd w' = cwd w
      /\ history_in_cwd w' records'.
Proof.
  intros datetime_str set_iter inputs.
  induction inputs as [|[timestamp line] inputs IH]; intros w records Hh Hall.
  - exists w, records. split; [reflexivity | split; [reflexivity | exact Hh]].
  - cbn [forallb fst snd] in Hall. apply andb_true_iff in Hall.
    destruct Hall as [Hline Hall]. apply andb_true_iff in Hline.
    destruct Hline as [Hrec Hunknown].
    destruct (record_history_in_order w records timestamp line Hh)
      as [w1 [Hstep [Hcwd1 _]]].
    pose proof (record_history_keeps_order w records timestamp line Hh Hrec)
      as Hkeep.
    rewrite Hstep in Hkeep. cbn [fst] in Hkeep.
    destruct (IH w1 _ Hkeep Hall) as [w' [records' [Hloop [Hcwd Hh']]]].
    exists w', records'. split; [|split].
    + cbn [main_loop].
      rewrite (unknown_line_turn datetime_str set_iter timestamp line w
                 Hunknown), Hstep.
      cbn [fst snd]. rewrite Hloop. reflexivity.
    + rewrite Hcwd. exact Hcwd1.
    + exact Hh'.
Qed.

Lemma unknown_lines_never_end_session_witness :
  exists w' records',
    main_loop Datetime.utc_str first_seen
      [("1.5", "foo"); ("2.5", "bar x")] Sample.w0
    = ((flat_map unknown_line_output [("1.5", "foo"); ("2.5", "bar x")]
        ++ [Prompt "% "])%list, w', Uncaught EOFError)
    /\ cwd w' = cwd Sample.w0
    /\ history_in_cwd w' records'.
Proof.
  apply (unknown_lines_never_end_session Datetime.utc_str first_seen
           [("1.5", "foo"); ("2.5", "bar x")] Sample.w0 []).
  - exact sample_history_in_cwd.
  - reflexivity.
Defined.
